(** * Plant-monitor dashboard: data acquisition and connection state

    A shallow embedding of the TypeScript sources
    - [src/config/app.config.ts]        (thresholds, classifiers, constants),
    - [src/services/mockDataService.ts] (mock readings, history points),
    - [src/services/esp32Service.ts]    (HTTP fetcher, ADC validation),
    - [src/services/webSocketService.ts] (message handler),
    - [src/hooks/useSensorData.ts]      (the acquisition loop),
    followed by the properties of the specification, proved or refuted on it.

    Conventions.  A JavaScript [number] is a [JSNumber]: NaN, the two
    infinities, or a finite double, kept as the rational it denotes ([Math.round],
    [Math.min], [Math.max] and the comparisons are exact on doubles, so nothing
    is lost; the sign of zero is not kept, and no modelled operation depends on
    it).  [try]/[catch] is an error monad [Result].  React state is a record,
    the callback's captured render values are explicit parameters, and an
    [await] splits a function into the part before and the part after it. *)

From Stdlib Require Import ZArith QArith Qround List String Lia Lqa.
From Stdlib Require Import DecimalString.
Import ListNotations.
Open Scope Z_scope.
Open Scope string_scope.

(* ================================================================= *)
(** ** JavaScript values *)

Module JS.

Inductive JSNumber : Type :=
| NaN
| PosInf
| NegInf
| Fin (q : Q).

(** An integer-valued number. *)
Definition Int (z : Z) : JSNumber := Fin (inject_Z z).

(** Values that are not of type [number]. An array or object is carried with
    the text its [toString] yields. *)
Inductive JSOther : Type :=
| JSUndefined
| JSNull
| JSBool (b : bool)
| JSString (s : string)
| JSObject (rendering : string).

(** [JSNum n]: [typeof v === 'number']; [JSNot o]: any other type. *)
Inductive JSValue : Type :=
| JSNum (n : JSNumber)
| JSNot (o : JSOther).

Definition isNaN (n : JSNumber) : bool :=
  match n with NaN => true | _ => false end.

(** [a <= b] on numbers: false as soon as one side is NaN. *)
Definition le (a b : JSNumber) : bool :=
  match a, b with
  | NaN, _ | _, NaN => false
  | NegInf, _ => true
  | _, PosInf => true
  | PosInf, _ => false
  | _, NegInf => false
  | Fin x, Fin y => Qle_bool x y
  end.

(** [a < b]. *)
Definition lt (a b : JSNumber) : bool :=
  match a, b with
  | NaN, _ | _, NaN => false
  | _, _ => negb (le b a)
  end.

(** [Math.round]: the nearest integer, ties towards +Infinity. *)
Definition Math_round (n : JSNumber) : JSNumber :=
  match n with
  | Fin q => Int (Qfloor (q + (1 # 2)))
  | other => other
  end.

Definition Math_floor (n : JSNumber) : JSNumber :=
  match n with
  | Fin q => Int (Qfloor q)
  | other => other
  end.

Definition Math_max (a b : JSNumber) : JSNumber :=
  if isNaN a || isNaN b then NaN else if le a b then b else a.

Definition Math_min (a b : JSNumber) : JSNumber :=
  if isNaN a || isNaN b then NaN else if le a b then a else b.

(** Decimal text of an integer, as a template literal renders it. *)
Definition Z_toString (z : Z) : string :=
  NilZero.string_of_int (Z.to_int z).

(** [String(v)] for a value that is not a number. *)
Definition ToString (o : JSOther) : string :=
  match o with
  | JSUndefined => "undefined"
  | JSNull => "null"
  | JSBool true => "true"
  | JSBool false => "false"
  | JSString s => s
  | JSObject rendering => rendering
  end.

(** [s || d] on a string that may be absent: the empty string is falsy. *)
Definition string_or (s : option string) (d : string) : string :=
  match s with
  | Some EmptyString | None => d
  | Some t => t
  end.

(** A [Date] object; [new Date(text)] on unreadable text is an invalid date,
    which is still an object (truthy). *)
Inductive Date : Type :=
| DateAt (ms : Z)
| InvalidDate.

Definition getTime (d : Date) : JSNumber :=
  match d with
  | DateAt ms => Int ms
  | InvalidDate => NaN
  end.

(** The options object handed to [toLocaleTimeString]. *)
Record TimeFormatOptions : Type := {
  hour : string;
  minute : string;
  second : string;
  hour12 : bool
}.

(** What the runtime decides: how [new Date(text)] reads a text, how
    [toLocaleTimeString()] without arguments prints a date (default locale),
    and how [toLocaleTimeString(locale, options)] prints it. *)
Record Runtime : Type := {
  Date_parse : string -> Date;
  toLocaleTimeString : Date -> string;
  toLocaleTimeStringWith : string -> TimeFormatOptions -> Date -> string
}.

End JS.
Import JS.

(* ================================================================= *)
(** ** Exceptions *)

(** What the modelled code throws or catches. *)
Inductive JSError : Type :=
| AbortError                               (* DOMException of an aborted fetch *)
| TypeError (message : string)             (* network failure, property of null *)
| ESP32ConnectionError (message : string)
| ESP32TimeoutError (timeout : Z)
| ESP32ParseError (message : string)
| PlainError (message : string).           (* new Error(...) *)

(** [error.message]. The text of an [AbortError] is the browser's; it is never
    shown, since [fetchSensorData] replaces that error. Everything thrown here
    is an [Error], so the hook's ['Connection failed'] default is never used. *)
Definition message_of (e : JSError) : string :=
  match e with
  | AbortError => "The operation was aborted."
  | TypeError m => m
  | ESP32ConnectionError m => m
  | ESP32TimeoutError t => "Request timed out after " ++ Z_toString t ++ "ms"
  | ESP32ParseError m => m
  | PlainError m => m
  end.

Inductive Result (A : Type) : Type :=
| Ok (a : A)
| Throw (e : JSError).
Arguments Ok {A} a.
Arguments Throw {A} e.

Definition bind {A B : Type} (r : Result A) (k : A -> Result B) : Result B :=
  match r with
  | Ok a => k a
  | Throw e => Throw e
  end.

Notation "x <- r ;; k" := (bind r (fun x => k))
  (at level 61, r at next level, right associativity).

(** [try { body } catch (e) { handler e }]. *)
Definition try_catch {A : Type} (body : Result A) (handler : JSError -> Result A)
  : Result A :=
  match body with
  | Ok a => Ok a
  | Throw e => handler e
  end.

(* ================================================================= *)
(** ** src/types/sensor.types.ts *)

Inductive SensorCondition : Type := Good | Okay | Bad.

Inductive DataSourceMode : Type := mock | esp32 | websocket.

Record SensorData : Type := {
  soilMoisture : JSNumber;
  light : JSNumber
}.

Module History.
Record HistoryDataPoint : Type := {
  time : string;
  timestamp : JSNumber;
  soilMoisture : JSNumber;
  light : JSNumber
}.
End History.
Definition HistoryDataPoint : Type := History.HistoryDataPoint.

Record ConnectionState : Type := {
  isConnected : bool;
  lastUpdate : option Date;
  isChecking : bool;
  error : option string
}.

Record ESP32Config : Type := {
  endpoint : string;
  updateInterval : Z;
  timeout : Z
}.

(** The [levels] table of the source only feeds the chart legend and is left out. *)
Record SensorThresholds : Type := {
  good : JSNumber;
  okay : JSNumber
}.

(* ================================================================= *)
(** ** src/config/app.config.ts *)

Definition DATA_SOURCE_MODE : DataSourceMode := esp32.

Definition ESP32_CONFIG : ESP32Config := {|
  endpoint := "https://plant-monitor-api.onrender.com/api/readings/latest";
  updateInterval := 5;
  timeout := 15000
|}.

Definition SOIL_MOISTURE_THRESHOLDS : SensorThresholds :=
  {| good := Int 1500; okay := Int 2500 |}.

Definition LIGHT_THRESHOLDS : SensorThresholds :=
  {| good := Int 3000; okay := Int 1500 |}.

Definition HISTORY_MAX_POINTS : nat := 30.

Definition getSoilMoistureCondition (value : JSNumber) : SensorCondition :=
  if JS.le value (good SOIL_MOISTURE_THRESHOLDS) then Good
  else if JS.le value (okay SOIL_MOISTURE_THRESHOLDS) then Okay
  else Bad.

Definition getLightCondition (value : JSNumber) : SensorCondition :=
  if JS.lt value (okay LIGHT_THRESHOLDS) then Bad
  else if JS.lt value (good LIGHT_THRESHOLDS) then Okay
  else Good.

Inductive SensorKind : Type := soil | light_kind.

Definition getSensorCondition (type : SensorKind) (value : JSNumber)
  : SensorCondition :=
  match type with
  | soil => getSoilMoistureCondition value
  | light_kind => getLightCondition value
  end.

(* ================================================================= *)
(** ** src/services/mockDataService.ts *)

Definition DEFAULT_MOCK_DATA : SensorData :=
  {| soilMoisture := Int 1200; light := Int 3200 |}.

Definition ADC_MIN : JSNumber := Int 0.
Definition ADC_MAX : JSNumber := Int 4095.

Definition clampToADCRange (value : JSNumber) : JSNumber :=
  Math_max ADC_MIN (Math_min ADC_MAX value).

Definition formatTimeString (rt : Runtime) (date : Date) : string :=
  toLocaleTimeStringWith rt "en-US"
    {| hour := "2-digit"; minute := "2-digit"; second := "2-digit";
       hour12 := false |}
    date.

(** [Math.random], [Math.sin] and [Math.cos] are not modelled: the caller
    supplies, for each reading, the two sums the source hands to [Math.floor]
    ([800 + Math.random() * 2000] and the like). *)
Definition Draw : Type := (JSNumber * JSNumber)%type.

Definition generateRandomSensorData (sums : Draw) : SensorData :=
  {| soilMoisture := clampToADCRange (Math_floor (fst sums));
     light := clampToADCRange (Math_floor (snd sums)) |}.

(** [pattern index] is the pair [(soilBase + soilWave, lightBase + lightWave)]
    that the call for [index] computes. *)
Definition generatePatternedSensorData (pattern : Z -> Draw) (index : Z)
  : SensorData :=
  {| soilMoisture := clampToADCRange (Math_floor (fst (pattern index)));
     light := clampToADCRange (Math_floor (snd (pattern index))) |}.

(** The body of the [for (let i = points - 1; i >= 0; i--)] loop, with
    [remaining = i + 1] iterations left and [data] pushed so far. *)
Fixpoint mockHistoryLoop (rt : Runtime) (pattern : Z -> Draw) (now : Z)
  (intervalSeconds : Z) (remaining : nat) (data : list HistoryDataPoint)
  : list HistoryDataPoint :=
  match remaining with
  | O => data
  | S i' =>
      let i := Z.of_nat i' in
      let timestamp := now - i * intervalSeconds * 1000 in
      let time := DateAt timestamp in
      let sensorData := generatePatternedSensorData pattern i in
      mockHistoryLoop rt pattern now intervalSeconds i'
        (data ++ [ {| History.time := formatTimeString rt time;
                      History.timestamp := Int timestamp;
                      History.soilMoisture := soilMoisture sensorData;
                      History.light := light sensorData |} ])
  end.

(** [now] is [Date.now()]. *)
Definition generateMockHistoryData (rt : Runtime) (pattern : Z -> Draw)
  (now : Z) (points : nat) (intervalSeconds : Z) : list HistoryDataPoint :=
  mockHistoryLoop rt pattern now intervalSeconds points [].

(** [timestamp] is the optional argument, [now] the [new Date()] used when it
    is missing. *)
Definition createHistoryPoint (rt : Runtime) (now : Date)
  (sensorData : SensorData) (timestamp : option Date) : HistoryDataPoint :=
  let time := match timestamp with Some t => t | None => now end in
  {| History.time := formatTimeString rt time;
     History.timestamp := getTime time;
     History.soilMoisture := soilMoisture sensorData;
     History.light := light sensorData |}.

(* ================================================================= *)
(** ** src/services/esp32Service.ts *)

Module Backend.

(** The fields of the [latest] object that the service reads. [soilValue] and
    [ldrValue] are whatever JSON held there; [timestamp] and [deviceId] are
    [None] when the field is missing. *)
Record BackendLatestReading : Type := {
  soilValue : JSValue;
  ldrValue : JSValue;
  timestamp : option string;
  deviceId : option string
}.

(** The fields of the body that the service reads; [success] is the
    truthiness of the field, and a body without a field reads as [false],
    [None] or a status other than ["Connected"]. *)
Record BackendAPIResponse : Type := {
  success : bool;
  deviceStatus : string;
  latest : option BackendLatestReading;
  error : option string
}.

(** What [response.json()] resolves to. *)
Inductive ParsedJson : Type :=
| JsonNull
| JsonObject (r : BackendAPIResponse).

(** A [Response]; [json = None] when [response.json()] rejects. *)
Record Response : Type := {
  ok : bool;
  status : Z;
  statusText : string;
  json : option ParsedJson
}.

(** How the awaited [fetch(...)] settles. *)
Inductive FetchOutcome : Type :=
| Rejected (e : JSError)
| Responded (r : Response).

Record ExtendedSensorData : Type := {
  soilMoisture : JSNumber;
  light : JSNumber;
  receivedAt : option Date;
  ext_deviceId : option string;
  isESP32Online : bool
}.

End Backend.
Import Backend (FetchOutcome, Rejected, Responded, JsonNull, JsonObject).

Definition validateADCValue (value : JSValue) (field : string) : Result JSNumber :=
  match value with
  | JSNum n =>
      if isNaN n
      then Throw (ESP32ParseError ("Invalid " ++ field ++ " value: NaN"))
      else Ok (Math_max (Int 0) (Math_min (Int 4095) (Math_round n)))
  | JSNot o =>
      Throw (ESP32ParseError ("Invalid " ++ field ++ " value: " ++ ToString o))
  end.

Definition transformBackendData (rt : Runtime)
  (response : Backend.BackendAPIResponse) : Result Backend.ExtendedSensorData :=
  match Backend.success response, Backend.latest response with
  | true, Some reading =>
      let receivedAt :=
        match Backend.timestamp reading with
        | Some EmptyString | None => None
        | Some text => Some (Date_parse rt text)
        end in
      let isESP32Online := String.eqb (Backend.deviceStatus response) "Connected" in
      soilMoisture <- validateADCValue (Backend.soilValue reading) "soilValue" ;;
      light <- validateADCValue (Backend.ldrValue reading) "ldrValue" ;;
      Ok {| Backend.soilMoisture := soilMoisture;
            Backend.light := light;
            Backend.receivedAt := receivedAt;
            Backend.ext_deviceId :=
              match Backend.deviceId reading with
              | Some EmptyString | None => None
              | Some d => Some d
              end;
            Backend.isESP32Online := isESP32Online |}
  | _, _ =>
      Throw (ESP32ParseError
               (string_or (Backend.error response) "No reading data available"))
  end.

Definition parseResponse (response : Backend.Response) : Result Backend.ParsedJson :=
  match Backend.json response with
  | Some data => Ok data
  | None => Throw (ESP32ParseError "Invalid JSON response from backend")
  end.

(** [fetchSensorData] from the point where the awaited [fetch] settles. *)
Definition fetchSensorData_resume (config : ESP32Config) (rt : Runtime)
  (outcome : FetchOutcome) : Result Backend.ExtendedSensorData :=
  try_catch
    (response <- match outcome with
                 | Rejected e => Throw e
                 | Responded r => Ok r
                 end ;;
     if negb (Backend.ok response)
     then Throw (ESP32ConnectionError
                   ("HTTP " ++ Z_toString (Backend.status response) ++ ": "
                    ++ Backend.statusText response))
     else
       data <- parseResponse response ;;
       match data with
       | JsonNull => Throw (TypeError "Cannot read properties of null")
       | JsonObject r => transformBackendData rt r
       end)
    (fun error =>
       match error with
       | AbortError => Throw (ESP32TimeoutError (timeout config))
       | ESP32ConnectionError _ | ESP32ParseError _ => Throw error
       | _ => Throw (ESP32ConnectionError "Failed to connect to backend API")
       end).

(* ================================================================= *)
(** ** src/services/webSocketService.ts *)

Module WS.

(** What [JSON.parse(rawData)] gives: a syntax error, [null], or a value whose
    two properties read as shown ([JSNot JSUndefined] when missing or when the
    value is a primitive). *)
Inductive Parsed : Type :=
| SyntaxError
| ParsedNull
| ParsedValue (soilMoisture light : JSValue).

Inductive WebSocketEventType : Type :=
| ev_connect | ev_disconnect | ev_data | ev_error.

Record WebSocketEvent : Type := {
  type : WebSocketEventType;
  event_data : option SensorData;
  event_timestamp : Z
}.

(** [handleMessage]: the connection state afterwards and the event handed to
    every listener, if any. [now] is the clock. *)
Definition handleMessage (now : Z) (parsed : Parsed) (st : ConnectionState)
  : ConnectionState * option WebSocketEvent :=
  let attempt : Result (ConnectionState * WebSocketEvent) :=
    match parsed with
    | SyntaxError => Throw (PlainError "Unexpected token")
    | ParsedNull => Throw (TypeError "Cannot read properties of null")
    | ParsedValue (JSNum s) (JSNum l) =>
        Ok ({| isConnected := isConnected st;
               lastUpdate := Some (DateAt now);
               isChecking := isChecking st;
               error := error st |},
            {| type := ev_data;
               event_data := Some {| soilMoisture := s; light := l |};
               event_timestamp := now |})
    | ParsedValue _ _ => Throw (PlainError "Invalid sensor data format")
    end in
  match attempt with
  | Ok (st', ev) => (st', Some ev)
  | Throw _ => (st, None)       (* console.error only *)
  end.

End WS.

(* ================================================================= *)
(** ** src/hooks/useSensorData.ts *)

(** The state of one [useSensorData] instance: three [useState] cells and two
    refs. *)
Record HookState : Type := {
  sensorData : SensorData;
  historyData : list HistoryDataPoint;
  connectionState : ConnectionState;
  isMountedRef : bool;
  initialFetchDone : bool
}.

Definition initialConnectionState : ConnectionState :=
  {| isConnected := false; lastUpdate := None; isChecking := true; error := None |}.

Definition initialHook : HookState := {|
  sensorData := DEFAULT_MOCK_DATA;
  historyData := [];
  connectionState := initialConnectionState;
  isMountedRef := true;
  initialFetchDone := false
|}.

(** [l.slice(-n)]: the last [n] elements, all of [l] when it is shorter (and
    when [n] is 0, since [-0] is 0). *)
Definition slice_last {A : Type} (n : nat) (l : list A) : list A :=
  match n with
  | O => l
  | _ => skipn (List.length l - n) l
  end.

(** The updater that [addHistoryPoint] hands to [setHistoryData]. *)
Definition appendPoint (prev : list HistoryDataPoint) (newPoint : HistoryDataPoint)
  : list HistoryDataPoint :=
  let updated := (prev ++ [newPoint])%list in
  slice_last HISTORY_MAX_POINTS updated.

Definition addHistoryPoint (rt : Runtime) (now : Date) (data : SensorData)
  (timestamp : option Date) (prev : list HistoryDataPoint)
  : list HistoryDataPoint :=
  appendPoint prev (createHistoryPoint rt now data timestamp).

(** What one cycle takes from its surroundings after the [await]: the clock,
    and the sums behind the random readings it may generate. *)
Record CycleEnv : Type := {
  now_ms : Z;
  draw : Draw;
  pattern : Z -> Draw
}.

(** [fetchData] up to the [await]: [None] when it returns at once because the
    component is unmounted, else the state after [setConnectionState]. *)
Definition fetchData_begin (h : HookState) : option HookState :=
  if negb (isMountedRef h) then None
  else Some {|
    sensorData := sensorData h;
    historyData := historyData h;
    connectionState :=
      {| isConnected := isConnected (connectionState h);
         lastUpdate := lastUpdate (connectionState h);
         isChecking := true;
         error := None |};
    isMountedRef := isMountedRef h;
    initialFetchDone := initialFetchDone h
  |}.

(** The body of the [try] block up to the second mounted check. [fetched] is
    what [esp32Service.fetchSensorData()] gave. *)
Definition acquire (env : CycleEnv) (fetched : Result Backend.ExtendedSensorData)
  : Result (SensorData * bool * option Date) :=
  match DATA_SOURCE_MODE with
  | mock =>
      Ok (generateRandomSensorData (draw env), true, Some (DateAt (now_ms env)))
  | _ =>
      extendedData <- fetched ;;
      Ok ({| soilMoisture := Backend.soilMoisture extendedData;
             light := Backend.light extendedData |},
          Backend.isESP32Online extendedData,
          Backend.receivedAt extendedData)
  end.

(** [fetchData] after the [await]. [rendered] is the [connectionState] of the
    render whose [useCallback] produced this [fetchData]: the [catch] clause
    reads [connectionState.lastUpdate] from that closure, not from the state. *)
Definition fetchData_resume (rt : Runtime) (rendered : ConnectionState)
  (env : CycleEnv) (fetched : Result Backend.ExtendedSensorData) (h : HookState)
  : HookState :=
  match acquire env fetched with
  | Ok (newData, isESP32Online, receivedAt) =>
      if negb (isMountedRef h) then h
      else
        let now := DateAt (now_ms env) in
        let stamp := match receivedAt with Some d => d | None => now end in
        {| sensorData := newData;
           historyData := addHistoryPoint rt now newData (Some stamp) (historyData h);
           connectionState :=
             {| isConnected := isESP32Online;
                lastUpdate := Some stamp;
                isChecking := false;
                error := if isESP32Online then None
                         else Some "ESP32 offline - no recent data" |};
           isMountedRef := isMountedRef h;
           initialFetchDone := true |}
  | Throw error =>
      if negb (isMountedRef h) then h
      else
        let errorMessage := message_of error in
        let failed :=
          {| isConnected := false;
             lastUpdate := lastUpdate rendered;
             isChecking := false;
             error := Some errorMessage |} in
        if negb (initialFetchDone h)
        then {| sensorData := DEFAULT_MOCK_DATA;
                historyData :=
                  generateMockHistoryData rt (pattern env) (now_ms env) 10
                    (updateInterval ESP32_CONFIG);
                connectionState := failed;
                isMountedRef := isMountedRef h;
                initialFetchDone := true |}
        else {| sensorData := sensorData h;
                historyData := historyData h;
                connectionState := failed;
                isMountedRef := isMountedRef h;
                initialFetchDone := true |}
  end.

(* ----------------------------------------------------------------- *)
(** *** The hook with its service, event by event *)

(** A [fetchData] call suspended inside [fetchSensorData]: its number, the
    render it closed over, whether its [AbortController] has been aborted, and
    which of the two awaits it is at: [body_of = None] at [await fetch(...)],
    [body_of = Some response] at [await response.json()] of the response that
    the fetch resolved with. *)
Record Pending : Type := {
  cid : nat;
  rendered : ConnectionState;
  aborted : bool;
  body_of : option Backend.Response
}.

(** The hook, the singleton [esp32Service] (its [abortController] field names
    the call whose controller it holds) and the suspended calls. *)
Record World : Type := {
  hook : HookState;
  abortController : option nat;
  pending : list Pending;
  nextId : nat
}.

Definition initialWorld : World :=
  {| hook := initialHook; abortController := None; pending := []; nextId := 0 |}.

(** [ESP32Service.abort]: the controller held, if any, is aborted. *)
Definition abort (held : option nat) (ps : list Pending) : list Pending :=
  match held with
  | None => ps
  | Some c =>
      map (fun p => if Nat.eqb (cid p) c
                    then {| cid := cid p; rendered := rendered p; aborted := true;
                            body_of := body_of p |}
                    else p) ps
  end.

(** A call of the [fetchData] built by the render that showed [rendered], up
    to the [await fetch(...)] inside [fetchSensorData] ([DATA_SOURCE_MODE] is
    ['esp32'], so the call goes to the service): the service aborts the
    controller it holds and installs a new one for this call. *)
Definition invoke (rendered : ConnectionState) (w : World) : World :=
  match fetchData_begin (hook w) with
  | None => w
  | Some h =>
      {| hook := h;
         abortController := Some (nextId w);
         pending := (abort (abortController w) (pending w)
                     ++ [ {| cid := nextId w; rendered := rendered; aborted := false;
                             body_of := None |} ])%list;
         nextId := S (nextId w) |}
  end.

Inductive Event : Type :=
| PollTick                      (* the effect's first call, or an interval tick *)
| Refresh                       (* [refresh()] of the latest render *)
| Settle (c : nat) (env : CycleEnv) (outcome : FetchOutcome)
                                (* the [fetch] of call [c] settles and the call
                                   runs to its end *)
| Unmount                       (* the effect's cleanup *)
| Headers (c : nat) (response : Backend.Response)
                                (* the [fetch] of call [c] resolves with an ok
                                   response; the call starts reading the body *)
| SettleBody (c : nat) (env : CycleEnv) (json : option Backend.ParsedJson).
                                (* the body read of call [c] settles *)

Definition find_pending (c : nat) (ps : list Pending) : option Pending :=
  find (fun p => Nat.eqb (cid p) c) ps.

Definition drop_pending (c : nat) (ps : list Pending) : list Pending :=
  filter (fun p => negb (Nat.eqb (cid p) c)) ps.

(** The call [c] goes on to [await response.json()]. *)
Definition start_body (c : nat) (response : Backend.Response)
  (ps : list Pending) : list Pending :=
  map (fun p => if Nat.eqb (cid p) c
                then {| cid := cid p; rendered := rendered p;
                        aborted := aborted p; body_of := Some response |}
                else p) ps.

(** [fetchSensorData] from the point where [response.json()] settles, for a
    response whose status was ok: [json = None] when the read rejects. *)
Definition fetchSensorData_resume_body (config : ESP32Config) (rt : Runtime)
  (response : Backend.Response) (json : option Backend.ParsedJson)
  : Result Backend.ExtendedSensorData :=
  fetchSensorData_resume config rt
    (Responded {| Backend.ok := true;
                  Backend.status := Backend.status response;
                  Backend.statusText := Backend.statusText response;
                  Backend.json := json |}).

(** What an event hands to the rest of [fetchData], if it ends a call of
    [fetchSensorData]: the call, the surroundings and the result.

    [Settle] ends a call that awaits its fetch: the fetch settles as [outcome]
    says and, when that is an ok response, the body read settles right after as
    the response's [json] says, nothing happening in between. A fetch whose
    controller was aborted rejects with [AbortError] whatever the network would
    have answered; the timeout timer aborting a live call is the outcome
    [Rejected AbortError].

    [SettleBody] ends a call that awaits its body, after [Headers]. A body
    read whose controller was aborted rejects, whatever was received, and
    [parseResponse] reports any rejection as invalid JSON. (The timeout timer
    is cleared by then.) *)
Definition settled (rt : Runtime) (w : World) (e : Event)
  : option (Pending * CycleEnv * Result Backend.ExtendedSensorData) :=
  match e with
  | Settle c env outcome =>
      match find_pending c (pending w) with
      | Some p =>
          match body_of p with
          | None =>
              let outcome' := if aborted p then Rejected AbortError else outcome in
              Some (p, env, fetchSensorData_resume ESP32_CONFIG rt outcome')
          | Some _ => None
          end
      | None => None
      end
  | SettleBody c env json =>
      match find_pending c (pending w) with
      | Some p =>
          match body_of p with
          | Some response =>
              let json' := if aborted p then None else json in
              Some (p, env,
                    fetchSensorData_resume_body ESP32_CONFIG rt response json')
          | None => None
          end
      | None => None
      end
  | _ => None
  end.

(** The effect has empty dependencies, so the first call and the timer both
    run the [fetchData] of the first render, whose [connectionState] is the
    initial one. [refresh] is rebuilt whenever [fetchData] is, that is whenever
    [connectionState.lastUpdate] changes, so its closure holds the [lastUpdate]
    of the state shown (the only field the [catch] clause reads). An event
    that cannot occur (a call not suspended, or not at that await; headers of
    an aborted call or of a response that is not ok, which ends the call at
    once and is a [Settle]) changes nothing. *)
Definition step (rt : Runtime) (w : World) (e : Event) : World :=
  match e with
  | PollTick => invoke initialConnectionState w
  | Refresh => invoke (connectionState (hook w)) w
  | Unmount =>
      {| hook := {| sensorData := sensorData (hook w);
                    historyData := historyData (hook w);
                    connectionState := connectionState (hook w);
                    isMountedRef := false;
                    initialFetchDone := initialFetchDone (hook w) |};
         abortController := abortController w;
         pending := pending w;
         nextId := nextId w |}
  | Headers c response =>
      match find_pending c (pending w) with
      | Some p =>
          match body_of p with
          | None =>
              if negb (aborted p) && Backend.ok response
              then {| hook := hook w;
                      abortController := abortController w;
                      pending := start_body c response (pending w);
                      nextId := nextId w |}
              else w
          | Some _ => w
          end
      | None => w
      end
  | Settle _ _ _ | SettleBody _ _ _ =>
      match settled rt w e with
      | Some (p, env, fetched) =>
          {| hook := fetchData_resume rt (rendered p) env fetched (hook w);
             abortController := abortController w;
             pending := drop_pending (cid p) (pending w);
             nextId := nextId w |}
      | None => w
      end
  end.

Definition run (rt : Runtime) (w : World) (events : list Event) : World :=
  fold_left (step rt) events w.

(* ================================================================= *)
(** ** src/services/esp32Service.ts: connection check *)

(** [checkConnection] from the point where the [fetch] of its
    [fetchSensorData] call settles. *)
Definition checkConnection_resume (config : ESP32Config) (rt : Runtime)
  (outcome : FetchOutcome) : bool :=
  match fetchSensorData_resume config rt outcome with
  | Ok _ => true
  | Throw _ => false
  end.

(** The suspended calls whose controller has not been aborted. *)
Definition live (ps : list Pending) : list Pending :=
  filter (fun p => negb (aborted p)) ps.

(* ================================================================= *)
(** ** src/services/mockDataService.ts: the service class *)

Module MockService.

(** [intervalId] is the field; [timers] are the interval timers of the
    runtime that were set and not cleared; [listeners] is the [Set] of
    callbacks, in insertion order, each callback named by a number.  Timer
    ids start at 1 (an id is truthy). *)
Record State : Type := {
  intervalId : option nat;
  timers : list nat;
  listeners : list nat;
  nextTimer : nat
}.

Definition initial : State :=
  {| intervalId := None; timers := []; listeners := []; nextTimer := 1 |}.

Definition stop (s : State) : State :=
  match intervalId s with
  | Some t =>
      {| intervalId := None;
         timers := filter (fun u => negb (Nat.eqb u t)) (timers s);
         listeners := listeners s;
         nextTimer := nextTimer s |}
  | None => s
  end.

Definition start (s : State) : State :=
  let s1 := match intervalId s with Some _ => stop s | None => s end in
  {| intervalId := Some (nextTimer s1);
     timers := (timers s1 ++ [nextTimer s1])%list;
     listeners := listeners s1;
     nextTimer := S (nextTimer s1) |}.

(** [Set.prototype.add]. *)
Definition set_add (x : nat) (l : list nat) : list nat :=
  if existsb (Nat.eqb x) l then l else (l ++ [x])%list.

(** [Set.prototype.delete]. *)
Definition set_delete (x : nat) (l : list nat) : list nat :=
  filter (fun y => negb (Nat.eqb y x)) l.

Definition subscribe (callback : nat) (s : State) : State :=
  {| intervalId := intervalId s;
     timers := timers s;
     listeners := set_add callback (listeners s);
     nextTimer := nextTimer s |}.

(** The function that [subscribe] returns. *)
Definition unsubscribe (callback : nat) (s : State) : State :=
  {| intervalId := intervalId s;
     timers := timers s;
     listeners := set_delete callback (listeners s);
     nextTimer := nextTimer s |}.

(** The interval timer [t] fires: the calls made, each a listener with the
    reading it receives. *)
Definition tick (t : nat) (sums : Draw) (s : State) : list (nat * SensorData) :=
  if existsb (Nat.eqb t) (timers s)
  then map (fun l => (l, generateRandomSensorData sums)) (listeners s)
  else [].

Inductive Op : Type :=
| Start
| Stop
| Subscribe (callback : nat)
| Unsubscribe (callback : nat).

Definition apply (s : State) (o : Op) : State :=
  match o with
  | Start => start s
  | Stop => stop s
  | Subscribe c => subscribe c s
  | Unsubscribe c => unsubscribe c s
  end.

Definition run (s : State) (ops : list Op) : State := fold_left apply ops s.

End MockService.


(* ================================================================= *)
(** ** src/services/webSocketService.ts: connection and reconnection *)

Module WSService.

Record WebSocketConfig : Type := {
  url : string;
  reconnectInterval : Z;
  maxReconnectAttempts : Z
}.

Definition WEBSOCKET_CONFIG : WebSocketConfig := {|
  url := "ws://192.168.137.77:81/";
  reconnectInterval := 5000;
  maxReconnectAttempts := 10
|}.

Inductive ReadyState : Type := CONNECTING | OPEN | CLOSING | CLOSED.

(** The service object and what it has set up in the runtime: [sockets] are
    the [WebSocket] objects it created (each keeps the four handlers that
    [setupEventHandlers] gave it) with their [readyState]; [timers] are the
    timeouts set and neither fired nor cleared; [emitted] are the types of the
    events handed to the listeners, in order. Sockets and timers are named by
    numbers from 1 on (an id is truthy). *)
Record Service : Type := {
  config : WebSocketConfig;
  ws : option nat;
  sockets : list (nat * ReadyState);
  reconnectAttempts : Z;
  reconnectTimeoutId : option nat;
  timers : list nat;
  state : ConnectionState;
  emitted : list WS.WebSocketEventType;
  fresh : nat
}.

Definition initial (c : WebSocketConfig) : Service := {|
  config := c;
  ws := None;
  sockets := [];
  reconnectAttempts := 0;
  reconnectTimeoutId := None;
  timers := [];
  state := {| isConnected := false; lastUpdate := None;
              isChecking := false; error := None |};
  emitted := [];
  fresh := 1
|}.

Definition readyStateOf (k : nat) (l : list (nat * ReadyState))
  : option ReadyState :=
  match find (fun p => Nat.eqb (fst p) k) l with
  | Some p => Some (snd p)
  | None => None
  end.

Definition setReadyState (k : nat) (r : ReadyState) (l : list (nat * ReadyState))
  : list (nat * ReadyState) :=
  map (fun p => if Nat.eqb (fst p) k then (k, r) else p) l.

Definition with_state (cs : ConnectionState) (ty : list WS.WebSocketEventType)
  (s : Service) : Service :=
  {| config := config s; ws := ws s; sockets := sockets s;
     reconnectAttempts := reconnectAttempts s;
     reconnectTimeoutId := reconnectTimeoutId s; timers := timers s;
     state := cs; emitted := (emitted s ++ ty)%list; fresh := fresh s |}.

(** [handleError]: the state is updated and an error event is sent. *)
Definition handleError (message : string) (s : Service) : Service :=
  with_state {| isConnected := false;
                lastUpdate := lastUpdate (state s);
                isChecking := false;
                error := Some message |}
             [WS.ev_error] s.

(** [connect]. [thrown] is the message of the exception that [new WebSocket]
    throws, if it throws (a URL the page may not open). *)
Definition connect (thrown : option string) (s : Service) : Service :=
  match match ws s with
        | Some k => readyStateOf k (sockets s)
        | None => None
        end with
  | Some OPEN => s
  | _ =>
      let s1 := with_state {| isConnected := isConnected (state s);
                              lastUpdate := lastUpdate (state s);
                              isChecking := true;
                              error := error (state s) |}
                           [WS.ev_connect] s in
      match thrown with
      | Some message => handleError message s1
      | None =>
          {| config := config s1; ws := Some (fresh s1);
             sockets := (sockets s1 ++ [(fresh s1, CONNECTING)])%list;
             reconnectAttempts := reconnectAttempts s1;
             reconnectTimeoutId := reconnectTimeoutId s1; timers := timers s1;
             state := state s1; emitted := emitted s1; fresh := S (fresh s1) |}
      end
  end.

Definition clearReconnectTimeout (s : Service) : Service :=
  match reconnectTimeoutId s with
  | Some t =>
      {| config := config s; ws := ws s; sockets := sockets s;
         reconnectAttempts := reconnectAttempts s;
         reconnectTimeoutId := None;
         timers := filter (fun u => negb (Nat.eqb u t)) (timers s);
         state := state s; emitted := emitted s; fresh := fresh s |}
  | None => s
  end.

Definition scheduleReconnect (s : Service) : Service :=
  if reconnectAttempts s >=? maxReconnectAttempts (config s) then s
  else
    let s1 := clearReconnectTimeout s in
    {| config := config s1; ws := ws s1; sockets := sockets s1;
       reconnectAttempts := reconnectAttempts s1;
       reconnectTimeoutId := Some (fresh s1);
       timers := (timers s1 ++ [fresh s1])%list;
       state := state s1; emitted := emitted s1; fresh := S (fresh s1) |}.

(** [ws.close()]: a socket that is connecting or open starts closing. *)
Definition closing (k : nat) (l : list (nat * ReadyState))
  : list (nat * ReadyState) :=
  match readyStateOf k l with
  | Some CONNECTING | Some OPEN => setReadyState k CLOSING l
  | _ => l
  end.

Definition disconnect (s : Service) : Service :=
  let s1 := clearReconnectTimeout s in
  {| config := config s1;
     ws := None;
     sockets := match ws s1 with
                | Some k => closing k (sockets s1)
                | None => sockets s1
                end;
     reconnectAttempts := 0;
     reconnectTimeoutId := reconnectTimeoutId s1; timers := timers s1;
     state := {| isConnected := false;
                 lastUpdate := lastUpdate (state s1);
                 isChecking := false;
                 error := None |};
     emitted := emitted s1; fresh := fresh s1 |}.

(** What happens to the service: its methods are called, the sockets it
    created fire their events, the reconnect timeout fires. An event that
    cannot occur (a socket not created, already closed, not open; a timer not
    pending) changes nothing. *)
Inductive Event : Type :=
| Connect (thrown : option string)
| Disconnect
| SocketOpen (k : nat) (now : Z)
| SocketClose (k : nat)
| SocketError (k : nat)
| SocketMessage (k : nat) (now : Z) (parsed : WS.Parsed)
| TimerFires (t : nat) (thrown : option string).

Definition with_sockets (l : list (nat * ReadyState)) (s : Service) : Service :=
  {| config := config s; ws := ws s; sockets := l;
     reconnectAttempts := reconnectAttempts s;
     reconnectTimeoutId := reconnectTimeoutId s; timers := timers s;
     state := state s; emitted := emitted s; fresh := fresh s |}.

Definition step (s : Service) (e : Event) : Service :=
  match e with
  | Connect thrown => connect thrown s
  | Disconnect => disconnect s
  | SocketOpen k now =>
      match readyStateOf k (sockets s) with
      | Some CONNECTING =>
          let s1 := with_sockets (setReadyState k OPEN (sockets s)) s in
          {| config := config s1; ws := ws s1; sockets := sockets s1;
             reconnectAttempts := 0;
             reconnectTimeoutId := reconnectTimeoutId s1; timers := timers s1;
             state := {| isConnected := true;
                         lastUpdate := Some (DateAt now);
                         isChecking := false;
                         error := None |};
             emitted := (emitted s1 ++ [WS.ev_connect])%list;
             fresh := fresh s1 |}
      | _ => s
      end
  | SocketClose k =>
      match readyStateOf k (sockets s) with
      | Some CLOSED | None => s
      | Some _ =>
          let s1 := with_sockets (setReadyState k CLOSED (sockets s)) s in
          scheduleReconnect
            (with_state {| isConnected := false;
                           lastUpdate := lastUpdate (state s1);
                           isChecking := isChecking (state s1);
                           error := error (state s1) |}
                        [WS.ev_disconnect] s1)
      end
  | SocketError k =>
      match readyStateOf k (sockets s) with
      | Some CLOSED | None => s
      | Some _ => handleError "WebSocket error" s
      end
  | SocketMessage k now parsed =>
      match readyStateOf k (sockets s) with
      | Some OPEN =>
          match WS.handleMessage now parsed (state s) with
          | (cs, Some _) => with_state cs [WS.ev_data] s
          | (cs, None) => with_state cs [] s
          end
      | _ => s
      end
  | TimerFires t thrown =>
      if existsb (Nat.eqb t) (timers s)
      then connect thrown
             {| config := config s; ws := ws s; sockets := sockets s;
                reconnectAttempts := reconnectAttempts s + 1;
                reconnectTimeoutId := reconnectTimeoutId s;
                timers := filter (fun u => negb (Nat.eqb u t)) (timers s);
                state := state s; emitted := emitted s; fresh := fresh s |}
      else s
  end.

Definition run (s : Service) (events : list Event) : Service :=
  fold_left step events s.

(** An event of the runtime that is no socket opening: a close, an error, a
    message or the timeout. *)
Definition passive (e : Event) : bool :=
  match e with
  | SocketClose _ | SocketError _ | SocketMessage _ _ _ | TimerFires _ _ => true
  | _ => false
  end.

(** [rounds] failed attempts in a row: the socket [k] closes, the timeout
    [k + 1] fires and opens the socket [k + 2], and so on. *)
Fixpoint failedRounds (rounds k : nat) : list Event :=
  match rounds with
  | O => []
  | S n => SocketClose k :: TimerFires (S k) None :: failedRounds n (S (S k))
  end.

End WSService.


(* ================================================================= *)
(** ** ConnectionStatusBar: the age of the last update *)

(** [formatLastUpdate] of the status bar; [now] is [new Date().getTime()].
    On an invalid date the difference is NaN, every comparison fails and the
    last branch is taken. [Math.floor(x / n)] on integers is the floored
    quotient. *)
Definition formatLastUpdate (rt : Runtime) (now : Z) (date : option Date)
  : string :=
  match date with
  | None => "Never"
  | Some InvalidDate => toLocaleTimeString rt InvalidDate
  | Some (DateAt ms) =>
      let diffMs := now - ms in
      let diffSeconds := diffMs / 1000 in
      if (diffSeconds <? 5)%Z then "Just now"
      else if (diffSeconds <? 60)%Z then Z_toString diffSeconds ++ "s ago"
      else if (diffSeconds <? 3600)%Z then Z_toString (diffSeconds / 60) ++ "m ago"
      else toLocaleTimeString rt (DateAt ms)
  end.


(* ================================================================= *)
(** ** Sample inputs *)

Definition sampleRuntime : Runtime := {|
  Date_parse := fun _ => DateAt 1768381380102;
  toLocaleTimeString := fun _ => "9:03:00 AM";
  toLocaleTimeStringWith := fun _ _ _ => "09:03:00"
|}.

Definition sampleEnv : CycleEnv := {|
  now_ms := 1768381385000;
  draw := (Int 1000, Int 3000);
  pattern := fun _ => (Int 1500, Int 2500)
|}.

Definition sampleReading (soilValue ldrValue : JSValue)
  : Backend.BackendLatestReading := {|
  Backend.soilValue := soilValue;
  Backend.ldrValue := ldrValue;
  Backend.timestamp := Some "2026-01-14T09:03:00.102Z";
  Backend.deviceId := Some "ESP32_Plant_Monitor"
|}.

(** A 200 response carrying the documented body. *)
Definition sampleResponse (soilValue ldrValue : JSValue) (deviceStatus : string)
  : Backend.Response := {|
  Backend.ok := true;
  Backend.status := 200;
  Backend.statusText := "OK";
  Backend.json := Some (JsonObject {|
    Backend.success := true;
    Backend.deviceStatus := deviceStatus;
    Backend.latest := Some (sampleReading soilValue ldrValue);
    Backend.error := None |})
|}.

(** The documented reading, device online. *)
Definition sampleGoodOutcome : FetchOutcome :=
  Responded (sampleResponse (JSNum (Int 2067)) (JSNum (Int 2858)) "Connected").

Definition sampleNetworkFailure : FetchOutcome :=
  Rejected (TypeError "Failed to fetch").

Definition samplePoint (n : nat) : HistoryDataPoint := {|
  History.time := "09:03:00";
  History.timestamp := Int (Z.of_nat n);
  History.soilMoisture := Int 2067;
  History.light := Int 2858
|}.

(** A world where a refresh (call 1) was superseded by a timer tick
    (call 2) after a first successful cycle. *)
Definition sampleOverlapWorld : World :=
  run sampleRuntime initialWorld
    [PollTick; Settle 0 sampleEnv sampleGoodOutcome; Refresh; PollTick].

(** A world where a refresh (call 1) was superseded by a timer tick
    (call 2) while it was reading the body of an ok response. *)
Definition sampleBodyOverlapWorld : World :=
  run sampleRuntime initialWorld
    [PollTick; Settle 0 sampleEnv sampleGoodOutcome; Refresh;
     Headers 1 (sampleResponse (JSNum (Int 100)) (JSNum (Int 200)) "Connected");
     PollTick].

(** A world after one successful cycle, nothing in flight. *)
Definition sampleSettledWorld : World :=
  run sampleRuntime initialWorld
    [PollTick; Settle 0 sampleEnv sampleGoodOutcome].


(** The shipped configuration after the first connection and ten failed
    reconnections in a row. *)
Definition sampleExhaustedService : WSService.Service :=
  WSService.run (WSService.initial WSService.WEBSOCKET_CONFIG)
    (WSService.Connect None :: WSService.failedRounds 10 1).

(** The shipped configuration with its socket open. *)
Definition sampleOpenService : WSService.Service :=
  WSService.run (WSService.initial WSService.WEBSOCKET_CONFIG)
    [WSService.Connect None; WSService.SocketOpen 1 1768381380102].


(* ================================================================= *)
(** ** Vocabulary of the specification *)

(** A value that is a number other than NaN and the infinities. *)
Definition is_finite_number (v : JSValue) : bool :=
  match v with
  | JSNum (Fin _) => true
  | _ => false
  end.

(** A value that is a number other than NaN. *)
Definition is_number_not_NaN (v : JSValue) : bool :=
  match v with
  | JSNum n => negb (isNaN n)
  | JSNot _ => false
  end.

(** [field] occurs in [message]. *)
Definition names_field (field message : string) : Prop :=
  exists before after, message = before ++ field ++ after.

(** The validation of a backend field as the specification words it: a value
    that is not a finite number is refused with a parse error naming the field,
    any other comes out as an integer of the ADC range. *)
Definition validates_as_specified (v : JSValue) (field : string) : Prop :=
  if is_finite_number v
  then exists z, 0 <= z <= 4095 /\ validateADCValue v field = Ok (Int z)
  else exists message,
         validateADCValue v field = Throw (ESP32ParseError message)
         /\ names_field field message.

(** The WebSocket channel as the specification words it: whatever reading
    reaches the listeners went through the validation of the HTTP fetcher. *)
Definition delivers_validated (parsed : WS.Parsed) : Prop :=
  forall now st soil ldr ev reading,
    parsed = WS.ParsedValue soil ldr ->
    snd (WS.handleMessage now parsed st) = Some ev ->
    WS.event_data ev = Some reading ->
    validateADCValue soil "soilMoisture" = Ok (soilMoisture reading)
    /\ validateADCValue ldr "light" = Ok (light reading).

(** The time a successful cycle records: the receipt time the device reported
    when the response carries one, else the current time. *)
Definition receipt_or_now (rt : Runtime) (env : CycleEnv)
  (reading : Backend.BackendLatestReading) : Date :=
  match Backend.timestamp reading with
  | Some EmptyString | None => DateAt (now_ms env)
  | Some text => Date_parse rt text
  end.

(** The hook once the cycle started on mount has settled. *)
Definition afterFirstCycle (rt : Runtime) (env : CycleEnv)
  (outcome : FetchOutcome) : HookState :=
  hook (run rt initialWorld [PollTick; Settle 0 env outcome]).

(** Every suspended call whose controller is not aborted is the one the
    service holds. *)
Definition one_in_flight (w : World) : Prop :=
  Forall (fun p => aborted p = false -> abortController w = Some (cid p))
         (pending w).

(** What every state of the hook satisfies: a bounded history, a reading of
    the ADC range, and no error shown while connected. *)
Definition reading_in_ADC_range (d : SensorData) : Prop :=
  exists a b,
    0 <= a <= 4095 /\ 0 <= b <= 4095
    /\ d = {| soilMoisture := Int a; light := Int b |}.

Definition hook_invariant (h : HookState) : Prop :=
  (List.length (historyData h) <= HISTORY_MAX_POINTS)%nat
  /\ reading_in_ADC_range (sensorData h)
  /\ (isConnected (connectionState h) = true -> error (connectionState h) = None).

(** The point that the mock history generates for loop index [i]. *)
Definition mockPoint (rt : Runtime) (pattern : Z -> Draw) (now intervalSeconds : Z)
  (i : nat) : HistoryDataPoint :=
  {| History.time :=
       formatTimeString rt (DateAt (now - Z.of_nat i * intervalSeconds * 1000));
     History.timestamp := Int (now - Z.of_nat i * intervalSeconds * 1000);
     History.soilMoisture :=
       soilMoisture (generatePatternedSensorData pattern (Z.of_nat i));
     History.light :=
       light (generatePatternedSensorData pattern (Z.of_nat i)) |}.

Definition point_in_ADC_range (p : HistoryDataPoint) : Prop :=
  exists a b,
    0 <= a <= 4095 /\ 0 <= b <= 4095
    /\ History.soilMoisture p = Int a /\ History.light p = Int b.


(** The states the mock service can be in: the live timers are exactly the
    one the field names, and the listeners hold no callback twice. *)
Definition mock_service_invariant (s : MockService.State) : Prop :=
  MockService.timers s
  = match MockService.intervalId s with Some t => [t] | None => [] end
  /\ NoDup (MockService.listeners s).


(** At most one reconnect timeout is pending, the one the field names. *)
Definition ws_timer_invariant (s : WSService.Service) : Prop :=
  WSService.timers s = []
  \/ exists t, WSService.timers s = [t]
               /\ WSService.reconnectTimeoutId s = Some t.

(** The attempts counter stays within the configured maximum, and below it
    while a timeout is pending. *)
Definition ws_attempts_invariant (c : WSService.WebSocketConfig)
  (s : WSService.Service) : Prop :=
  WSService.config s = c
  /\ 0 <= WSService.reconnectAttempts s <= WSService.maxReconnectAttempts c
  /\ (WSService.timers s <> [] ->
      WSService.reconnectAttempts s < WSService.maxReconnectAttempts c).


(* ================================================================= *)
(** ** Numbers *)

Lemma le_Int (a b : Z) : JS.le (Int a) (Int b) = (a <=? b)%Z.
Proof.
  unfold JS.le, Int, Qle_bool, inject_Z; simpl.
  now rewrite !Z.mul_1_r.
Qed.

Lemma lt_Int (a b : Z) : JS.lt (Int a) (Int b) = (a <? b)%Z.
Proof.
  unfold JS.lt. change (Int a) with (Fin (inject_Z a)) at 1.
  change (Int b) with (Fin (inject_Z b)) at 1. cbv iota beta.
  fold (Int a) (Int b). rewrite le_Int. symmetry. apply Z.ltb_antisym.
Qed.

Lemma Math_min_Int (a b : Z) : Math_min (Int a) (Int b) = Int (Z.min a b).
Proof.
  unfold Math_min. cbn [isNaN Int orb]. fold (Int a) (Int b). rewrite le_Int.
  destruct (Z.leb_spec a b); f_equal; lia.
Qed.

Lemma Math_max_Int (a b : Z) : Math_max (Int a) (Int b) = Int (Z.max a b).
Proof.
  unfold Math_max. cbn [isNaN Int orb]. fold (Int a) (Int b). rewrite le_Int.
  destruct (Z.leb_spec a b); f_equal; lia.
Qed.

Lemma Qfloor_half (z : Z) : Qfloor (inject_Z z + (1 # 2)) = z.
Proof.
  unfold Qfloor, Qplus, inject_Z; simpl.
  symmetry. apply Z.div_unique with (r := 1); lia.
Qed.

Lemma Math_round_Int (z : Z) : Math_round (Int z) = Int z.
Proof. unfold Math_round, Int at 1. now rewrite Qfloor_half. Qed.

(** The clamp of the service on an integer-valued number. *)
Lemma clamp_Int (z : Z) :
  Math_max (Int 0) (Math_min (Int 4095) (Int z)) = Int (Z.max 0 (Z.min 4095 z)).
Proof. now rewrite Math_min_Int, Math_max_Int. Qed.

Lemma validateADCValue_Fin (q : Q) (field : string) :
  validateADCValue (JSNum (Fin q)) field
  = Ok (Int (Z.max 0 (Z.min 4095 (Qfloor (q + (1 # 2)))))).
Proof. unfold validateADCValue. cbn [isNaN Math_round]. now rewrite clamp_Int. Qed.

Lemma validateADCValue_PosInf (field : string) :
  validateADCValue (JSNum PosInf) field = Ok (Int 4095).
Proof. reflexivity. Qed.

Lemma validateADCValue_NegInf (field : string) :
  validateADCValue (JSNum NegInf) field = Ok (Int 0).
Proof. reflexivity. Qed.

(** Whatever is accepted comes out as an integer between 0 and 4095. *)
Lemma validateADCValue_range (v : JSValue) (field : string) (r : JSNumber) :
  validateADCValue v field = Ok r -> exists z, 0 <= z <= 4095 /\ r = Int z.
Proof.
  destruct v as [[| | |q]|o]; intros H.
  - discriminate.
  - rewrite validateADCValue_PosInf in H. injection H as <-. exists 4095. split; [lia|reflexivity].
  - rewrite validateADCValue_NegInf in H. injection H as <-. exists 0. split; [lia|reflexivity].
  - rewrite validateADCValue_Fin in H. injection H as <-.
    eexists. split; [|reflexivity]. lia.
  - discriminate.
Qed.

Lemma validateADCValue_in_range (z : Z) (field : string) :
  0 <= z <= 4095 -> validateADCValue (JSNum (Int z)) field = Ok (Int z).
Proof.
  intros Hz. unfold Int at 1. rewrite validateADCValue_Fin, Qfloor_half.
  do 2 f_equal. lia.
Qed.

(* ================================================================= *)
(** ** Threshold classifier *)

(** C4. For every integer [v] of the ADC range, the moisture classifier gives
    [Good] exactly when [v <= 1500], [Okay] exactly when [1500 < v <= 2500] and
    [Bad] exactly above 2500; both boundaries fall in the better class. *)
Theorem moisture_classifier_thresholds (v : Z) :
  0 <= v <= 4095 ->
  (getSoilMoistureCondition (Int v) = Good <-> v <= 1500)
  /\ (getSoilMoistureCondition (Int v) = Okay <-> 1500 < v <= 2500)
  /\ (getSoilMoistureCondition (Int v) = Bad <-> 2500 < v).
Proof.
  intros _. unfold getSoilMoistureCondition. cbn [good okay SOIL_MOISTURE_THRESHOLDS].
  rewrite !le_Int.
  destruct (Z.leb_spec v 1500); [|destruct (Z.leb_spec v 2500)];
    repeat split; intros; try discriminate; try reflexivity; lia.
Qed.

Lemma moisture_classifier_thresholds_witness :
  0 <= 1500 <= 4095
  /\ ((getSoilMoistureCondition (Int 1500) = Good <-> 1500 <= 1500)
      /\ (getSoilMoistureCondition (Int 1500) = Okay <-> 1500 < 1500 <= 2500)
      /\ (getSoilMoistureCondition (Int 1500) = Bad <-> 2500 < 1500)).
Proof.
  split; [lia | apply (moisture_classifier_thresholds 1500); lia].
Defined.

Example moisture_at_1500 : getSoilMoistureCondition (Int 1500) = Good.
Proof. reflexivity. Qed.

Example moisture_at_2500 : getSoilMoistureCondition (Int 2500) = Okay.
Proof. reflexivity. Qed.

Example moisture_at_2501 : getSoilMoistureCondition (Int 2501) = Bad.
Proof. reflexivity. Qed.

(** C5. For every integer [v] of the ADC range, the light classifier gives
    [Bad] exactly when [v < 1500], [Okay] exactly when [1500 <= v < 3000] and
    [Good] exactly from 3000 on; both boundaries fall in the better class. *)
Theorem light_classifier_thresholds (v : Z) :
  0 <= v <= 4095 ->
  (getLightCondition (Int v) = Bad <-> v < 1500)
  /\ (getLightCondition (Int v) = Okay <-> 1500 <= v < 3000)
  /\ (getLightCondition (Int v) = Good <-> 3000 <= v).
Proof.
  intros _. unfold getLightCondition. cbn [good okay LIGHT_THRESHOLDS].
  rewrite !lt_Int.
  destruct (Z.ltb_spec v 1500); [|destruct (Z.ltb_spec v 3000)];
    repeat split; intros; try discriminate; try reflexivity; lia.
Qed.

Lemma light_classifier_thresholds_witness :
  0 <= 3000 <= 4095
  /\ ((getLightCondition (Int 3000) = Bad <-> 3000 < 1500)
      /\ (getLightCondition (Int 3000) = Okay <-> 1500 <= 3000 < 3000)
      /\ (getLightCondition (Int 3000) = Good <-> 3000 <= 3000)).
Proof.
  split; [lia | apply (light_classifier_thresholds 3000); lia].
Defined.

Example light_at_1499 : getLightCondition (Int 1499) = Bad.
Proof. reflexivity. Qed.

Example light_at_1500 : getLightCondition (Int 1500) = Okay.
Proof. reflexivity. Qed.

Example light_at_3000 : getLightCondition (Int 3000) = Good.
Proof. reflexivity. Qed.

(** The documented sample reading classifies as Okay on both axes. *)
Example documented_reading_is_okay :
  getSensorCondition soil (Int 2067) = Okay
  /\ getSensorCondition light_kind (Int 2858) = Okay.
Proof. split; reflexivity. Qed.

(* ================================================================= *)
(** ** ADC validation *)

Lemma invalid_message_names_field (field text : string) :
  names_field field ("Invalid " ++ field ++ " value: " ++ text).
Proof. exists "Invalid ", (" value: " ++ text). reflexivity. Qed.

Lemma validateADCValue_refused (v : JSValue) (field : string) :
  is_number_not_NaN v = false ->
  exists text,
    validateADCValue v field
    = Throw (ESP32ParseError ("Invalid " ++ field ++ " value: " ++ text)).
Proof.
  destruct v as [[| | |q]|o]; cbn; intros H; try discriminate.
  - now exists "NaN".
  - now exists (ToString o).
Qed.

Lemma validateADCValue_accepted (v : JSValue) (field : string) :
  is_number_not_NaN v = true ->
  exists z, 0 <= z <= 4095 /\ validateADCValue v field = Ok (Int z).
Proof.
  destruct v as [[| | |q]|o]; cbn [is_number_not_NaN isNaN negb]; intros H;
    try discriminate.
  - exists 4095. split; [lia | reflexivity].
  - exists 0. split; [lia | reflexivity].
  - eexists. split; [| apply validateADCValue_Fin]. lia.
Qed.

(** A field that the validation refuses makes the whole fetch fail with the
    same parse error: [transformBackendData] lets it through, and the [catch]
    clause of [fetchSensorData] rethrows parse errors untouched. *)
Lemma refused_field_fails_fetch (rt : Runtime) (resp : Backend.Response)
  (body : Backend.BackendAPIResponse) (reading : Backend.BackendLatestReading)
  (e : JSError) :
  Backend.ok resp = true ->
  Backend.json resp = Some (JsonObject body) ->
  Backend.success body = true ->
  Backend.latest body = Some reading ->
  validateADCValue (Backend.soilValue reading) "soilValue" = Throw e
  \/ ((exists s, validateADCValue (Backend.soilValue reading) "soilValue" = Ok s)
      /\ validateADCValue (Backend.ldrValue reading) "ldrValue" = Throw e) ->
  fetchSensorData_resume ESP32_CONFIG rt (Responded resp) = Throw e.
Proof.
  intros Hok Hjson Hsucc Hlatest Hbad.
  assert (He : exists m, e = ESP32ParseError m).
  { destruct Hbad as [H | [_ H]];
      [ destruct (Backend.soilValue reading) as [[| | |q]|o]
      | destruct (Backend.ldrValue reading) as [[| | |q]|o] ];
      cbn in H; try discriminate;
      try (rewrite clamp_Int in H; discriminate);
      injection H as <-; eexists; reflexivity. }
  destruct He as [m ->].
  unfold fetchSensorData_resume, parseResponse, transformBackendData.
  cbn [bind]. rewrite Hok, Hjson. cbn [negb bind]. rewrite Hsucc, Hlatest.
  destruct Hbad as [H | [[s Hs] H]].
  - rewrite H. reflexivity.
  - rewrite Hs, H. reflexivity.
Qed.

(** C3, as the specification words it, fails on the code: positive infinity
    (the JSON number [1e999] parses to it) is not a finite number, and the
    validation does not refuse it. *)
Lemma infinity_is_not_refused :
  ~ validates_as_specified (JSNum PosInf) "soilValue".
Proof.
  unfold validates_as_specified. cbn [is_finite_number].
  intros [message [H _]]. rewrite validateADCValue_PosInf in H. discriminate.
Qed.

(** C3, amended. A value that is not a number, or is NaN, is refused with a
    parse error whose message names the field, and the fetch fails with that
    error; every other number, the infinities included, is rounded and clamped
    into [[0, 4095]]: a finite one to the clamp of its rounding, positive
    infinity to 4095 and negative infinity to 0. In particular 5000 becomes
    4095 and -10 becomes 0. *)
Theorem adc_validation_amended :
  (forall v field, is_number_not_NaN v = false ->
     exists message,
       validateADCValue v field = Throw (ESP32ParseError message)
       /\ names_field field message)
  /\ (forall v field, is_number_not_NaN v = true ->
        exists z, 0 <= z <= 4095 /\ validateADCValue v field = Ok (Int z))
  /\ (forall q field,
        validateADCValue (JSNum (Fin q)) field
        = Ok (Int (Z.max 0 (Z.min 4095 (Qfloor (q + (1 # 2)))))))
  /\ (forall field,
        validateADCValue (JSNum PosInf) field = Ok (Int 4095)
        /\ validateADCValue (JSNum NegInf) field = Ok (Int 0))
  /\ validateADCValue (JSNum (Int 5000)) "soilValue" = Ok (Int 4095)
  /\ validateADCValue (JSNum (Int (-10))) "ldrValue" = Ok (Int 0)
  /\ (forall rt soilValue ldrValue deviceStatus,
        is_number_not_NaN soilValue = false ->
        exists message,
          fetchSensorData_resume ESP32_CONFIG rt
            (Responded (sampleResponse soilValue ldrValue deviceStatus))
          = Throw (ESP32ParseError message)
          /\ names_field "soilValue" message)
  /\ (forall rt soilValue ldrValue deviceStatus,
        is_number_not_NaN soilValue = true ->
        is_number_not_NaN ldrValue = false ->
        exists message,
          fetchSensorData_resume ESP32_CONFIG rt
            (Responded (sampleResponse soilValue ldrValue deviceStatus))
          = Throw (ESP32ParseError message)
          /\ names_field "ldrValue" message).
Proof.
  repeat apply conj.
  - intros v field H. destruct (validateADCValue_refused v field H) as [text E].
    eexists. split; [exact E | apply invalid_message_names_field].
  - apply validateADCValue_accepted.
  - apply validateADCValue_Fin.
  - intros field. split;
      [apply validateADCValue_PosInf | apply validateADCValue_NegInf].
  - reflexivity.
  - reflexivity.
  - intros rt sv lv ds H.
    destruct (validateADCValue_refused sv "soilValue" H) as [text E].
    eexists. split; [| apply invalid_message_names_field].
    eapply refused_field_fails_fetch; try reflexivity. left. exact E.
  - intros rt sv lv ds Hs Hl.
    destruct (validateADCValue_accepted sv "soilValue" Hs) as [z [_ Ez]].
    destruct (validateADCValue_refused lv "ldrValue" Hl) as [text E].
    eexists. split; [| apply invalid_message_names_field].
    eapply refused_field_fails_fetch; try reflexivity.
    right. split; [eexists; exact Ez | exact E].
Qed.

Lemma adc_validation_amended_witness :
  (exists message,
     validateADCValue (JSNot (JSString "wet")) "soilValue"
     = Throw (ESP32ParseError message)
     /\ names_field "soilValue" message)
  /\ (exists z, 0 <= z <= 4095
        /\ validateADCValue (JSNum (Fin (20675 # 10))) "soilValue" = Ok (Int z)).
Proof.
  split.
  - apply (proj1 adc_validation_amended). reflexivity.
  - apply (proj1 (proj2 adc_validation_amended)). reflexivity.
Defined.

Example rounding_half_up :
  validateADCValue (JSNum (Fin (20675 # 10))) "soilValue" = Ok (Int 2068).
Proof. reflexivity. Qed.

Example nan_is_refused :
  validateADCValue (JSNum NaN) "ldrValue"
  = Throw (ESP32ParseError "Invalid ldrValue value: NaN").
Proof. reflexivity. Qed.

(** C10. The validation is the identity on the integers of the ADC range,
    and validating an accepted result again, under any field name, gives that
    result back; the mock service's clamp is the identity on that range too. *)
Theorem adc_validation_identity_idempotent :
  (forall v field, 0 <= v <= 4095 ->
     validateADCValue (JSNum (Int v)) field = Ok (Int v))
  /\ (forall x field r, validateADCValue x field = Ok r ->
        forall field', validateADCValue (JSNum r) field' = Ok r)
  /\ (forall v, 0 <= v <= 4095 -> clampToADCRange (Int v) = Int v).
Proof.
  repeat apply conj.
  - intros v field Hv. now apply validateADCValue_in_range.
  - intros x field r H field'.
    destruct (validateADCValue_range x field r H) as [z [Hz ->]].
    now apply validateADCValue_in_range.
  - intros v Hv. unfold clampToADCRange, ADC_MIN, ADC_MAX.
    rewrite clamp_Int. f_equal. lia.
Qed.

Lemma adc_validation_identity_idempotent_witness :
  validateADCValue (JSNum (Int 2067)) "soilValue" = Ok (Int 2067)
  /\ validateADCValue (JSNum (Int 4095)) "soilValue" = Ok (Int 4095).
Proof.
  split.
  - apply (proj1 adc_validation_identity_idempotent). lia.
  - apply (proj1 (proj2 adc_validation_identity_idempotent)
             (JSNum (Int 5000)) "soilValue").
    reflexivity.
Defined.

(* ================================================================= *)
(** ** WebSocket channel *)

(** C9, as the specification words it, fails on the code: the payload
    [{ soilMoisture: 5000, light: -10 }] reaches the listeners as it came,
    where the HTTP validation would give 4095 and 0. *)
Lemma websocket_payload_not_clamped :
  ~ delivers_validated (WS.ParsedValue (JSNum (Int 5000)) (JSNum (Int (-10)))).
Proof.
  intros H.
  destruct (H 0 initialConnectionState _ _ _ _ eq_refl eq_refl eq_refl) as [Hs _].
  vm_compute in Hs. discriminate Hs.
Qed.

(** C9, amended. A WebSocket payload is checked only for the type of its two
    fields: when both are numbers the reading is handed to the listeners
    exactly as parsed, neither rounded nor clamped, and [lastUpdate] becomes
    the current time; otherwise nothing is delivered and the connection state
    stays as it was. For integers already inside [[0, 4095]] the reading
    delivered is the one the HTTP validation would give. *)
Theorem websocket_delivery_amended :
  (forall now st parsed,
     match parsed with
     | WS.ParsedValue (JSNum s) (JSNum l) =>
         WS.handleMessage now parsed st
         = ({| isConnected := isConnected st;
               lastUpdate := Some (DateAt now);
               isChecking := isChecking st;
               error := error st |},
            Some {| WS.type := WS.ev_data;
                    WS.event_data := Some {| soilMoisture := s; light := l |};
                    WS.event_timestamp := now |})
     | _ => WS.handleMessage now parsed st = (st, None)
     end)
  /\ (forall a b, 0 <= a <= 4095 -> 0 <= b <= 4095 ->
        delivers_validated (WS.ParsedValue (JSNum (Int a)) (JSNum (Int b)))).
Proof.
  split.
  - intros now st [| |[s|o] [l|o']]; reflexivity.
  - intros a b Ha Hb now st soil ldr ev reading Hp Hev Hd.
    injection Hp as <- <-. cbn in Hev. injection Hev as <-.
    cbn in Hd. injection Hd as <-. cbn [soilMoisture light].
    fold (Int a) (Int b).
    split; now apply validateADCValue_in_range.
Qed.

Lemma websocket_delivery_amended_witness :
  delivers_validated (WS.ParsedValue (JSNum (Int 2067)) (JSNum (Int 2858))).
Proof.
  apply (proj2 websocket_delivery_amended); lia.
Defined.

Example websocket_forwards_out_of_range :
  snd (WS.handleMessage 7 (WS.ParsedValue (JSNum (Int 5000)) (JSNum (Int (-10))))
         initialConnectionState)
  = Some {| WS.type := WS.ev_data;
            WS.event_data := Some {| soilMoisture := Int 5000; light := Int (-10) |};
            WS.event_timestamp := 7 |}.
Proof. reflexivity. Qed.

(* ================================================================= *)
(** ** Rolling history *)

Section SliceLast.
Context {A : Type}.
Implicit Types l a b : list A.

Lemma slice_last_length (n : nat) l :
  (0 < n)%nat -> (List.length (slice_last n l) <= n)%nat.
Proof.
  intros Hn. unfold slice_last. destruct n as [|n]; [lia|].
  rewrite length_skipn. lia.
Qed.

(** Trimming a prefix first changes nothing of what is kept at the end. *)
Lemma slice_last_app_trim (n : nat) a b :
  slice_last n (slice_last n a ++ b) = slice_last n (a ++ b).
Proof.
  unfold slice_last. destruct n as [|n]; [reflexivity|].
  set (k := (List.length a - S n)%nat).
  rewrite !length_app, length_skipn.
  assert (Hk : (k <= List.length a)%nat) by (unfold k; lia).
  replace (List.length a + List.length b - S n)%nat
    with ((List.length a - k + List.length b - S n) + k)%nat by (unfold k; lia).
  rewrite <- skipn_skipn. f_equal.
  rewrite skipn_app. replace (k - List.length a)%nat with 0%nat by lia.
  reflexivity.
Qed.

Lemma slice_last_long (n : nat) a b :
  (0 < n <= List.length b)%nat ->
  slice_last n (a ++ b) = skipn (List.length b - n) b.
Proof.
  intros Hn. unfold slice_last. destruct n as [|n]; [lia|].
  rewrite length_app, skipn_app.
  rewrite skipn_all2 by lia. cbn [app]. f_equal. lia.
Qed.

End SliceLast.

Lemma appendPoint_length (prev : list HistoryDataPoint) (p : HistoryDataPoint) :
  (List.length (appendPoint prev p) <= HISTORY_MAX_POINTS)%nat.
Proof. unfold appendPoint. apply slice_last_length. unfold HISTORY_MAX_POINTS. lia. Qed.

(** Appending one by one keeps what trimming once at the end would keep. *)
Lemma fold_appendPoint (points : list HistoryDataPoint) :
  forall start, points <> [] ->
    fold_left appendPoint points start
    = slice_last HISTORY_MAX_POINTS (start ++ points).
Proof.
  induction points as [|p rest IH]; intros start Hne; [contradiction|].
  cbn [fold_left]. destruct rest as [|q rest'].
  - reflexivity.
  - rewrite IH by discriminate. unfold appendPoint.
    rewrite slice_last_app_trim, <- app_assoc. reflexivity.
Qed.

(** C6. After more appends than the capacity of 30, starting from any
    buffer, the history holds exactly 30 points: the last 30 appended, in the
    order of their appending. After every single append the length is at most
    30, and so it is after any number of them. *)
Theorem rolling_history_keeps_last_points
  (start points : list HistoryDataPoint) :
  (List.length points > HISTORY_MAX_POINTS)%nat ->
  List.length (fold_left appendPoint points start) = HISTORY_MAX_POINTS
  /\ fold_left appendPoint points start
     = skipn (List.length points - HISTORY_MAX_POINTS) points
  /\ (forall k,
        (List.length (fold_left appendPoint (firstn (S k) points) start)
         <= HISTORY_MAX_POINTS)%nat)
  /\ (forall prev p,
        (List.length (appendPoint prev p) <= HISTORY_MAX_POINTS)%nat).
Proof.
  intros Hlen.
  assert (Hne : points <> []) by (destruct points; [cbn in Hlen; lia | discriminate]).
  assert (E : fold_left appendPoint points start
              = skipn (List.length points - HISTORY_MAX_POINTS) points).
  { rewrite fold_appendPoint by exact Hne.
    apply slice_last_long. unfold HISTORY_MAX_POINTS in *. lia. }
  repeat apply conj.
  - rewrite E, length_skipn. lia.
  - exact E.
  - intros k. destruct points as [|p rest]; [contradiction|].
    rewrite fold_appendPoint by (cbn; discriminate).
    apply slice_last_length. unfold HISTORY_MAX_POINTS. lia.
  - apply appendPoint_length.
Qed.

Lemma rolling_history_keeps_last_points_witness :
  (List.length (map samplePoint (seq 0 31)) > HISTORY_MAX_POINTS)%nat
  /\ fold_left appendPoint (map samplePoint (seq 0 31)) []
     = map samplePoint (seq 1 30).
Proof.
  split; [vm_compute; lia |].
  apply (proj1 (proj2 (rolling_history_keeps_last_points
                         [] (map samplePoint (seq 0 31)) ltac:(vm_compute; lia)))).
Defined.

(* ================================================================= *)
(** ** Acquisition loop: one cycle *)

Lemma mockHistoryLoop_length (rt : Runtime) (pattern : Z -> Draw)
  (now intervalSeconds : Z) (remaining : nat) :
  forall data,
    List.length (mockHistoryLoop rt pattern now intervalSeconds remaining data)
    = (List.length data + remaining)%nat.
Proof.
  induction remaining as [|i IH]; intros data; cbn [mockHistoryLoop].
  - lia.
  - rewrite IH, length_app. cbn [List.length]. lia.
Qed.

Lemma generateMockHistoryData_length (rt : Runtime) (pattern : Z -> Draw)
  (now : Z) (points : nat) (intervalSeconds : Z) :
  List.length (generateMockHistoryData rt pattern now points intervalSeconds)
  = points.
Proof. unfold generateMockHistoryData. now rewrite mockHistoryLoop_length. Qed.

(** What a successful fetch hands to the hook. *)
Lemma fetch_succeeds (rt : Runtime) (resp : Backend.Response)
  (body : Backend.BackendAPIResponse) (reading : Backend.BackendLatestReading)
  (s l : JSNumber) :
  Backend.ok resp = true ->
  Backend.json resp = Some (JsonObject body) ->
  Backend.success body = true ->
  Backend.latest body = Some reading ->
  validateADCValue (Backend.soilValue reading) "soilValue" = Ok s ->
  validateADCValue (Backend.ldrValue reading) "ldrValue" = Ok l ->
  exists ext,
    fetchSensorData_resume ESP32_CONFIG rt (Responded resp) = Ok ext
    /\ Backend.soilMoisture ext = s
    /\ Backend.light ext = l
    /\ Backend.isESP32Online ext
       = String.eqb (Backend.deviceStatus body) "Connected"
    /\ (forall env,
          match Backend.receivedAt ext with
          | Some d => d
          | None => DateAt (now_ms env)
          end = receipt_or_now rt env reading).
Proof.
  intros Hok Hjson Hsucc Hlatest Hs Hl.
  unfold fetchSensorData_resume, parseResponse, transformBackendData.
  cbn [bind]. rewrite Hok, Hjson. cbn [negb bind]. rewrite Hsucc, Hlatest, Hs, Hl.
  cbn [bind try_catch]. eexists. split; [reflexivity|].
  cbn. repeat split. intros env. unfold receipt_or_now.
  destruct (Backend.timestamp reading) as [[|c t]|]; reflexivity.
Qed.

(** A failing cycle, once a cycle has completed, leaves reading and history
    alone. *)
Lemma failure_keeps_reading (rt : Runtime) (rendered : ConnectionState)
  (env : CycleEnv) (e : JSError) (h : HookState) :
  initialFetchDone h = true ->
  sensorData (fetchData_resume rt rendered env (Throw e) h) = sensorData h
  /\ historyData (fetchData_resume rt rendered env (Throw e) h) = historyData h.
Proof.
  intros Hdone. unfold fetchData_resume, acquire. cbn.
  rewrite Hdone. destruct (isMountedRef h); split; reflexivity.
Qed.

(** The [catch] clause writes the [lastUpdate] of the render it closed over. *)
Lemma failure_writes_rendered_lastUpdate (rt : Runtime)
  (rendered : ConnectionState) (env : CycleEnv) (e : JSError) (h : HookState) :
  isMountedRef h = true ->
  connectionState (fetchData_resume rt rendered env (Throw e) h)
  = {| isConnected := false;
       lastUpdate := lastUpdate rendered;
       isChecking := false;
       error := Some (message_of e) |}.
Proof.
  intros Hm. unfold fetchData_resume, acquire. cbn. rewrite Hm. cbn.
  destruct (initialFetchDone h); reflexivity.
Qed.

Lemma resume_marks_first_fetch (rt : Runtime) (rendered : ConnectionState)
  (env : CycleEnv) (fetched : Result Backend.ExtendedSensorData) (h : HookState) :
  isMountedRef h = true \/ initialFetchDone h = true ->
  initialFetchDone (fetchData_resume rt rendered env fetched h) = true.
Proof.
  intros H. unfold fetchData_resume.
  destruct (acquire env fetched) as [[[d o] r]|e];
    destruct (isMountedRef h) eqn:Hm; cbn;
    try (destruct (initialFetchDone h) eqn:Hd; cbn);
    try reflexivity; destruct H; congruence.
Qed.

(** The five things an event can do: nothing, start a call, tear down, move
    a call to its second await, or end a call of [fetchSensorData] and run the
    rest of [fetchData] on its result. *)
Lemma step_shape (rt : Runtime) (w : World) (e : Event) :
  step rt w e = w
  \/ (exists r, step rt w e = invoke r w)
  \/ step rt w e
     = {| hook := {| sensorData := sensorData (hook w);
                     historyData := historyData (hook w);
                     connectionState := connectionState (hook w);
                     isMountedRef := false;
                     initialFetchDone := initialFetchDone (hook w) |};
          abortController := abortController w;
          pending := pending w;
          nextId := nextId w |}
  \/ (exists c r,
        step rt w e
        = {| hook := hook w;
             abortController := abortController w;
             pending := start_body c r (pending w);
             nextId := nextId w |})
  \/ (exists p env o,
        settled rt w e
        = Some (p, env, fetchSensorData_resume ESP32_CONFIG rt o)
        /\ step rt w e
           = {| hook := fetchData_resume rt (rendered p) env
                          (fetchSensorData_resume ESP32_CONFIG rt o) (hook w);
                abortController := abortController w;
                pending := drop_pending (cid p) (pending w);
                nextId := nextId w |}).
Proof.
  destruct e as [| |c env outcome| |c r|c env json]; cbn [step settled].
  - right. left. eexists. reflexivity.
  - right. left. eexists. reflexivity.
  - destruct (find_pending c (pending w)) as [p|]; [|now left].
    destruct (body_of p); [now left|].
    do 4 right. eexists p, env, _. split; reflexivity.
  - right. right. left. reflexivity.
  - destruct (find_pending c (pending w)) as [p|]; [|now left].
    destruct (body_of p); [now left|].
    destruct (negb (aborted p) && Backend.ok r); [|now left].
    do 3 right. left. eexists c, r. reflexivity.
  - destruct (find_pending c (pending w)) as [p|]; [|now left].
    destruct (body_of p) as [response|]; [|now left].
    do 4 right. eexists p, env, _. split; reflexivity.
Qed.

Lemma step_keeps_first_fetch_mark (rt : Runtime) (w : World) (e : Event) :
  initialFetchDone (hook w) = true ->
  initialFetchDone (hook (step rt w e)) = true.
Proof.
  intros Hd.
  destruct (step_shape rt w e)
    as [-> | [[r ->] | [-> | [[c [r ->]] | [p [env [o [_ ->]]]]]]]].
  - exact Hd.
  - unfold invoke, fetchData_begin. destruct (isMountedRef (hook w)); cbn; assumption.
  - exact Hd.
  - exact Hd.
  - cbn [hook]. apply resume_marks_first_fetch. now right.
Qed.

Lemma run_keeps_first_fetch_mark (rt : Runtime) (events : list Event) :
  forall w, initialFetchDone (hook w) = true ->
            initialFetchDone (hook (run rt w events)) = true.
Proof.
  unfold run. induction events as [|e rest IH]; intros w Hd; cbn [fold_left].
  - exact Hd.
  - apply IH. now apply step_keeps_first_fetch_mark.
Qed.

Lemma step_settled (rt : Runtime) (w : World) (e : Event) (p : Pending)
  (env : CycleEnv) (r : Result Backend.ExtendedSensorData) :
  settled rt w e = Some (p, env, r) ->
  step rt w e
  = {| hook := fetchData_resume rt (rendered p) env r (hook w);
       abortController := abortController w;
       pending := drop_pending (cid p) (pending w);
       nextId := nextId w |}.
Proof.
  intros H. destruct e as [| |c env0 outcome| |c r0|c env0 json];
    try discriminate; cbn [step]; rewrite H; reflexivity.
Qed.

Lemma afterFirstCycle_resume (rt : Runtime) (env : CycleEnv)
  (outcome : FetchOutcome) :
  afterFirstCycle rt env outcome
  = fetchData_resume rt initialConnectionState env
      (fetchSensorData_resume ESP32_CONFIG rt outcome) initialHook.
Proof. reflexivity. Qed.

(** C7. When the cycle started on mount fails, the reading is the default
    mock reading, the history is the 10 generated points, [isConnected] is
    false and [error] holds the failure's message. Every cycle that ends on a
    mounted component, succeeding or failing, sets the first-fetch mark, and
    the mark stays set; so once the first cycle has ended, however it ended
    and whatever happened since, a failing cycle leaves reading and history
    as they were. *)
Theorem first_failure_seeds_mock_once :
  (forall rt rendered env e h,
     isMountedRef h = true ->
     initialFetchDone h = false ->
     fetchData_resume rt rendered env (Throw e) h
     = {| sensorData := DEFAULT_MOCK_DATA;
          historyData :=
            generateMockHistoryData rt (pattern env) (now_ms env) 10 5;
          connectionState :=
            {| isConnected := false;
               lastUpdate := lastUpdate rendered;
               isChecking := false;
               error := Some (message_of e) |};
          isMountedRef := true;
          initialFetchDone := true |})
  /\ (forall rt env outcome e,
     fetchSensorData_resume ESP32_CONFIG rt outcome = Throw e ->
     sensorData (afterFirstCycle rt env outcome) = DEFAULT_MOCK_DATA
     /\ historyData (afterFirstCycle rt env outcome)
        = generateMockHistoryData rt (pattern env) (now_ms env) 10 5
     /\ List.length (historyData (afterFirstCycle rt env outcome)) = 10%nat
     /\ isConnected (connectionState (afterFirstCycle rt env outcome)) = false
     /\ error (connectionState (afterFirstCycle rt env outcome))
        = Some (message_of e)
     /\ initialFetchDone (afterFirstCycle rt env outcome) = true)
  /\ (forall rt rendered env e h,
        initialFetchDone h = true ->
        sensorData (fetchData_resume rt rendered env (Throw e) h) = sensorData h
        /\ historyData (fetchData_resume rt rendered env (Throw e) h)
           = historyData h)
  /\ (forall rt events w,
        initialFetchDone (hook w) = true ->
        initialFetchDone (hook (run rt w events)) = true)
  /\ (forall rt rendered env fetched h,
        isMountedRef h = true ->
        initialFetchDone (fetchData_resume rt rendered env fetched h) = true)
  /\ (forall rt w e p env fetched,
        isMountedRef (hook w) = true ->
        settled rt w e = Some (p, env, fetched) ->
        initialFetchDone (hook (step rt w e)) = true)
  /\ (forall rt env outcome events,
        initialFetchDone
          (hook (run rt initialWorld (PollTick :: Settle 0 env outcome :: events)))
        = true)
  /\ (forall rt w e p env err,
        initialFetchDone (hook w) = true ->
        settled rt w e = Some (p, env, Throw err) ->
        sensorData (hook (step rt w e)) = sensorData (hook w)
        /\ historyData (hook (step rt w e)) = historyData (hook w))
  /\ (forall rt env outcome events e p env' err,
        settled rt
          (run rt initialWorld (PollTick :: Settle 0 env outcome :: events)) e
        = Some (p, env', Throw err) ->
        sensorData
          (hook (step rt
                   (run rt initialWorld
                      (PollTick :: Settle 0 env outcome :: events)) e))
        = sensorData
            (hook (run rt initialWorld
                     (PollTick :: Settle 0 env outcome :: events)))
        /\ historyData
             (hook (step rt
                      (run rt initialWorld
                         (PollTick :: Settle 0 env outcome :: events)) e))
           = historyData
               (hook (run rt initialWorld
                        (PollTick :: Settle 0 env outcome :: events)))).
Proof.
  assert (Hfirst : forall rt env outcome events,
            initialFetchDone
              (hook (run rt initialWorld
                       (PollTick :: Settle 0 env outcome :: events)))
            = true).
  { intros rt env outcome events.
    change (run rt initialWorld (PollTick :: Settle 0 env outcome :: events))
      with (run rt (run rt initialWorld [PollTick; Settle 0 env outcome]) events).
    apply run_keeps_first_fetch_mark.
    fold (afterFirstCycle rt env outcome). rewrite afterFirstCycle_resume.
    apply resume_marks_first_fetch. now left. }
  assert (Hkeep : forall rt w e p env err,
            initialFetchDone (hook w) = true ->
            settled rt w e = Some (p, env, Throw err) ->
            sensorData (hook (step rt w e)) = sensorData (hook w)
            /\ historyData (hook (step rt w e)) = historyData (hook w)).
  { intros rt w e p env err Hd Hs. rewrite (step_settled _ _ _ _ _ _ Hs).
    cbn [hook]. now apply failure_keeps_reading. }
  repeat apply conj.
  - intros rt rendered env e h Hm Hd. unfold fetchData_resume, acquire.
    cbn [DATA_SOURCE_MODE bind]. rewrite Hm, Hd. reflexivity.
  - intros rt env outcome e Hfail. rewrite afterFirstCycle_resume, Hfail.
    cbn [fetchData_resume acquire DATA_SOURCE_MODE bind isMountedRef negb
         initialFetchDone sensorData historyData connectionState isConnected
         error updateInterval ESP32_CONFIG initialHook].
    rewrite generateMockHistoryData_length.
    repeat split; reflexivity.
  - intros. now apply failure_keeps_reading.
  - intros. now apply run_keeps_first_fetch_mark.
  - intros. apply resume_marks_first_fetch. now left.
  - intros rt w e p env fetched Hm Hs. rewrite (step_settled _ _ _ _ _ _ Hs).
    cbn [hook]. apply resume_marks_first_fetch. now left.
  - exact Hfirst.
  - exact Hkeep.
  - intros rt env outcome events e p env' err Hs.
    apply (Hkeep rt _ e p env' err); [apply Hfirst | exact Hs].
Qed.

Lemma first_failure_seeds_mock_once_witness :
  (sensorData (afterFirstCycle sampleRuntime sampleEnv
                 (Rejected (TypeError "Failed to fetch")))
   = DEFAULT_MOCK_DATA
   /\ List.length (historyData (afterFirstCycle sampleRuntime sampleEnv
                                  (Rejected (TypeError "Failed to fetch"))))
      = 10%nat
   /\ error (connectionState (afterFirstCycle sampleRuntime sampleEnv
                                (Rejected (TypeError "Failed to fetch"))))
      = Some "Failed to connect to backend API")
  /\ (sensorData
        (hook (run sampleRuntime initialWorld
                 [PollTick; Settle 0 sampleEnv sampleGoodOutcome;
                  PollTick; Settle 1 sampleEnv sampleNetworkFailure]))
      = {| soilMoisture := Int 2067; light := Int 2858 |}
      /\ List.length
           (historyData
              (hook (run sampleRuntime initialWorld
                       [PollTick; Settle 0 sampleEnv sampleGoodOutcome;
                        PollTick; Settle 1 sampleEnv sampleNetworkFailure])))
         = 1%nat).
Proof.
  split.
  - destruct (proj1 (proj2 first_failure_seeds_mock_once) sampleRuntime sampleEnv
                (Rejected (TypeError "Failed to fetch"))
                (ESP32ConnectionError "Failed to connect to backend API")
                eq_refl)
      as [Hd [_ [Hl [_ [He _]]]]].
    repeat split; assumption.
  - destruct (proj2 (proj2 (proj2 (proj2 (proj2 (proj2 (proj2 (proj2
                first_failure_seeds_mock_once)))))))
                sampleRuntime sampleEnv sampleGoodOutcome [PollTick]
                (Settle 1 sampleEnv sampleNetworkFailure)
                _ sampleEnv
                (ESP32ConnectionError "Failed to connect to backend API")
                eq_refl)
      as [Hs Hh].
    split; [exact Hs | exact (f_equal (@List.length _) Hh)].
Defined.

Lemma slice_last_snoc_exact {A : Type} (n : nat) (l : list A) (x : A) :
  slice_last (S n) (l ++ [x]) = (skipn (List.length l - n) l ++ [x])%list.
Proof.
  unfold slice_last. rewrite length_app, skipn_app. cbn [List.length].
  replace (List.length l + 1 - S n)%nat with (List.length l - n)%nat by lia.
  replace (List.length l - n - List.length l)%nat with 0%nat by lia.
  reflexivity.
Qed.

(** C8. When the response is a success whose [deviceStatus] is
    ["Disconnected"], the cycle stores the reading of the response; the
    history becomes its last 29 points at most followed by one new point that
    carries the two values of the response, the time of the receipt and that
    time printed; [lastUpdate] is the receipt time, which is the response's
    timestamp when it has one and the current time otherwise; and
    [isConnected] is false with the offline message as [error]. *)
Theorem offline_device_still_updates (rt : Runtime) (rendered : ConnectionState)
  (env : CycleEnv) (h : HookState) (resp : Backend.Response)
  (body : Backend.BackendAPIResponse) (reading : Backend.BackendLatestReading)
  (s l : JSNumber) :
  isMountedRef h = true ->
  Backend.ok resp = true ->
  Backend.json resp = Some (JsonObject body) ->
  Backend.success body = true ->
  Backend.latest body = Some reading ->
  Backend.deviceStatus body = "Disconnected" ->
  validateADCValue (Backend.soilValue reading) "soilValue" = Ok s ->
  validateADCValue (Backend.ldrValue reading) "ldrValue" = Ok l ->
  fetchData_resume rt rendered env
    (fetchSensorData_resume ESP32_CONFIG rt (Responded resp)) h
  = {| sensorData := {| soilMoisture := s; light := l |};
       historyData :=
         (skipn (List.length (historyData h) - 29) (historyData h)
          ++ [ {| History.time :=
                    toLocaleTimeStringWith rt "en-US"
                      {| hour := "2-digit"; minute := "2-digit";
                         second := "2-digit"; hour12 := false |}
                      (receipt_or_now rt env reading);
                  History.timestamp := getTime (receipt_or_now rt env reading);
                  History.soilMoisture := s;
                  History.light := l |} ])%list;
       connectionState :=
         {| isConnected := false;
            lastUpdate := Some (receipt_or_now rt env reading);
            isChecking := false;
            error := Some "ESP32 offline - no recent data" |};
       isMountedRef := true;
       initialFetchDone := true |}
  /\ List.length
       (historyData
          (fetchData_resume rt rendered env
             (fetchSensorData_resume ESP32_CONFIG rt (Responded resp)) h))
     = Nat.min 30 (S (List.length (historyData h)))
  /\ (forall text,
        Backend.timestamp reading = Some text -> text <> "" ->
        receipt_or_now rt env reading = Date_parse rt text)
  /\ (Backend.timestamp reading = None \/ Backend.timestamp reading = Some "" ->
      receipt_or_now rt env reading = DateAt (now_ms env)).
Proof.
  intros Hm Hok Hjson Hsucc Hlatest Hstatus Hs Hl.
  destruct (fetch_succeeds rt resp body reading s l Hok Hjson Hsucc Hlatest Hs Hl)
    as [ext [-> [Es [El [Eo Et]]]]].
  assert (E : fetchData_resume rt rendered env (Ok ext) h
    = {| sensorData := {| soilMoisture := s; light := l |};
         historyData :=
           (skipn (List.length (historyData h) - 29) (historyData h)
            ++ [ {| History.time :=
                      toLocaleTimeStringWith rt "en-US"
                        {| hour := "2-digit"; minute := "2-digit";
                           second := "2-digit"; hour12 := false |}
                        (receipt_or_now rt env reading);
                    History.timestamp := getTime (receipt_or_now rt env reading);
                    History.soilMoisture := s;
                    History.light := l |} ])%list;
         connectionState :=
           {| isConnected := false;
              lastUpdate := Some (receipt_or_now rt env reading);
              isChecking := false;
              error := Some "ESP32 offline - no recent data" |};
         isMountedRef := true;
         initialFetchDone := true |}).
  { unfold fetchData_resume, acquire. cbn [DATA_SOURCE_MODE bind].
    rewrite Hm, Es, El, Eo, Hstatus, (Et env).
    cbn [negb String.eqb Ascii.eqb Bool.eqb].
    unfold addHistoryPoint, appendPoint, HISTORY_MAX_POINTS.
    rewrite slice_last_snoc_exact. reflexivity. }
  rewrite E. cbn [historyData].
  repeat apply conj.
  - reflexivity.
  - rewrite length_app, length_skipn. cbn [List.length]. lia.
  - intros text Ht Hne. unfold receipt_or_now. rewrite Ht.
    destruct text; [contradiction | reflexivity].
  - intros [Ht | Ht]; unfold receipt_or_now; rewrite Ht; reflexivity.
Qed.

Lemma offline_device_still_updates_witness :
  fetchData_resume sampleRuntime initialConnectionState sampleEnv
    (fetchSensorData_resume ESP32_CONFIG sampleRuntime
       (Responded (sampleResponse (JSNum (Int 2067)) (JSNum (Int 2858))
                     "Disconnected")))
    initialHook
  = {| sensorData := {| soilMoisture := Int 2067; light := Int 2858 |};
       historyData :=
         [ {| History.time := "09:03:00";
              History.timestamp := Int 1768381380102;
              History.soilMoisture := Int 2067;
              History.light := Int 2858 |} ];
       connectionState :=
         {| isConnected := false;
            lastUpdate := Some (DateAt 1768381380102);
            isChecking := false;
            error := Some "ESP32 offline - no recent data" |};
       isMountedRef := true;
       initialFetchDone := true |}.
Proof.
  rewrite (proj1 (offline_device_still_updates sampleRuntime
             initialConnectionState sampleEnv initialHook
             (sampleResponse (JSNum (Int 2067)) (JSNum (Int 2858)) "Disconnected")
             _ (sampleReading (JSNum (Int 2067)) (JSNum (Int 2858)))
             (Int 2067) (Int 2858)
             eq_refl eq_refl eq_refl eq_refl eq_refl eq_refl eq_refl eq_refl)).
  reflexivity.
Defined.

(* ================================================================= *)
(** ** Acquisition loop: cycles in sequence and in overlap *)

(** X21. A refresh that fails while no other call is in flight leaves
    [lastUpdate] as the state had it: its closure is the render shown. *)
Lemma refresh_failure_keeps_lastUpdate (rt : Runtime) (w : World)
  (env : CycleEnv) (outcome : FetchOutcome) (e : JSError) :
  isMountedRef (hook w) = true ->
  pending w = [] ->
  fetchSensorData_resume ESP32_CONFIG rt outcome = Throw e ->
  lastUpdate (connectionState
                (hook (run rt w [Refresh; Settle (nextId w) env outcome])))
  = lastUpdate (connectionState (hook w)).
Proof.
  intros Hm Hp Hfail. unfold run. cbn [fold_left step].
  unfold invoke, fetchData_begin. rewrite Hm, Hp. cbn [negb].
  replace (abort (abortController w) []) with (@nil Pending)
    by (destruct (abortController w); reflexivity).
  cbn [settled app pending find_pending find cid]. rewrite Nat.eqb_refl.
  cbn [aborted rendered hook body_of]. rewrite Hfail.
  rewrite failure_writes_rendered_lastUpdate by reflexivity. reflexivity.
Qed.

(** C2 on the code, at a failing input. The mount cycle succeeds and records
    the receipt time; the next timer tick fails on the network. The reading
    survives, but [lastUpdate] falls back to null: the timer still runs the
    [fetchData] of the first render, whose [connectionState.lastUpdate] is
    null. *)
Theorem polled_failure_resets_lastUpdate (rt : Runtime) (env env' : CycleEnv) :
  lastUpdate (connectionState
                (hook (run rt initialWorld [PollTick; Settle 0 env sampleGoodOutcome])))
  = Some (Date_parse rt "2026-01-14T09:03:00.102Z")
  /\ lastUpdate (connectionState
                   (hook (run rt initialWorld
                            [PollTick; Settle 0 env sampleGoodOutcome;
                             PollTick; Settle 1 env' sampleNetworkFailure])))
     = None
  /\ sensorData (hook (run rt initialWorld
                         [PollTick; Settle 0 env sampleGoodOutcome;
                          PollTick; Settle 1 env' sampleNetworkFailure]))
     = {| soilMoisture := Int 2067; light := Int 2858 |}.
Proof. repeat split; reflexivity. Qed.

(** C1 on the code, at a failing input. A refresh is dispatched while the
    mount cycle is in flight. Whatever the network would have answered to the
    first call, its settling is applied: the state says the request timed out,
    [isChecking] drops while the second call is still pending, and ten mock
    points enter the history, where one point more is appended when the second
    call succeeds. The same happens between two later calls. *)
Theorem superseded_cycle_is_applied (rt : Runtime) (env env' : CycleEnv)
  (outcome : FetchOutcome) :
  connectionState (hook (run rt initialWorld [PollTick; Refresh]))
  = {| isConnected := false; lastUpdate := None;
       isChecking := true; error := None |}
  /\ historyData (hook (run rt initialWorld [PollTick; Refresh])) = []
  /\ connectionState
       (hook (run rt initialWorld [PollTick; Refresh; Settle 0 env outcome]))
     = {| isConnected := false; lastUpdate := None;
          isChecking := false;
          error := Some "Request timed out after 15000ms" |}
  /\ List.length
       (historyData
          (hook (run rt initialWorld [PollTick; Refresh; Settle 0 env outcome])))
     = 10%nat
  /\ map cid (pending (run rt initialWorld
                         [PollTick; Refresh; Settle 0 env outcome]))
     = [1%nat]
  /\ List.length
       (historyData
          (hook (run rt initialWorld
                   [PollTick; Refresh; Settle 0 env outcome;
                    Settle 1 env' sampleGoodOutcome])))
     = 11%nat
  /\ List.length
       (historyData
          (hook (run rt initialWorld [Refresh; Settle 0 env' sampleGoodOutcome])))
     = 1%nat
  /\ connectionState
       (hook (run rt initialWorld
                [PollTick; Settle 0 env sampleGoodOutcome; Refresh; PollTick]))
     = {| isConnected := true;
          lastUpdate := Some (Date_parse rt "2026-01-14T09:03:00.102Z");
          isChecking := true; error := None |}
  /\ connectionState
       (hook (run rt initialWorld
                [PollTick; Settle 0 env sampleGoodOutcome; Refresh; PollTick;
                 Settle 1 env' outcome]))
     = {| isConnected := false;
          lastUpdate := Some (Date_parse rt "2026-01-14T09:03:00.102Z");
          isChecking := false;
          error := Some "Request timed out after 15000ms" |}.
Proof. repeat split; reflexivity. Qed.

Lemma superseded_settles_as_failure (rt : Runtime) (w : World) (e : Event)
  (p : Pending) (env : CycleEnv) (fetched : Result Backend.ExtendedSensorData) :
  settled rt w e = Some (p, env, fetched) ->
  aborted p = true ->
  (body_of p = None /\ fetched = Throw (ESP32TimeoutError 15000))
  \/ (body_of p <> None
      /\ fetched = Throw (ESP32ParseError "Invalid JSON response from backend")).
Proof.
  intros Hs Ha.
  destruct e as [| |c env0 outcome| |c r0|c env0 json]; cbn [settled] in Hs;
    try discriminate;
    destruct (find_pending c (pending w)) as [q|]; try discriminate;
    destruct (body_of q) as [response|] eqn:Hb; try discriminate;
    injection Hs as -> -> <-; rewrite Ha.
  - left. split; [exact Hb | reflexivity].
  - right. split; [congruence | reflexivity].
Qed.

(** X20. A call that a newer call has superseded never stores its response.
    Whatever the network answers, a call whose controller was aborted ends as a
    failure: as the timeout error when it was still awaiting its fetch, as the
    invalid-JSON parse error when it was reading the body. So only a call whose
    controller is not aborted can end in success, and, once a cycle has ended
    before, the end of a superseded call leaves reading and history as they
    were. *)
Theorem superseded_cycle_ignores_response :
  (forall rt w e p env ext,
     settled rt w e = Some (p, env, Ok ext) -> aborted p = false)
  /\ (forall rt w e p env fetched,
        settled rt w e = Some (p, env, fetched) ->
        aborted p = true ->
        (body_of p = None /\ fetched = Throw (ESP32TimeoutError 15000))
        \/ (body_of p <> None
            /\ fetched
               = Throw (ESP32ParseError "Invalid JSON response from backend")))
  /\ (forall rt w e p env fetched,
        settled rt w e = Some (p, env, fetched) ->
        aborted p = true ->
        initialFetchDone (hook w) = true ->
        sensorData (hook (step rt w e)) = sensorData (hook w)
        /\ historyData (hook (step rt w e)) = historyData (hook w)).
Proof.
  repeat apply conj.
  - intros rt w e p env ext Hs. destruct (aborted p) eqn:Ha; [|reflexivity].
    destruct (superseded_settles_as_failure _ _ _ _ _ _ Hs Ha)
      as [[_ H] | [_ H]]; discriminate.
  - intros. eapply superseded_settles_as_failure; eassumption.
  - intros rt w e p env fetched Hs Ha Hd.
    rewrite (step_settled _ _ _ _ _ _ Hs). cbn [hook].
    destruct (superseded_settles_as_failure _ _ _ _ _ _ Hs Ha)
      as [[_ ->] | [_ ->]]; now apply failure_keeps_reading.
Qed.

(** C1 once more, with the first call superseded while it reads the body of
    an ok response: the state then shows the invalid-JSON error, and the
    reading that the response carried is not stored. *)
Example superseded_while_reading_body (rt : Runtime) (env : CycleEnv)
  (json : option Backend.ParsedJson) :
  connectionState
    (hook (run rt initialWorld
             [PollTick; Settle 0 env sampleGoodOutcome; Refresh;
              Headers 1 (sampleResponse (JSNum (Int 100)) (JSNum (Int 200))
                           "Connected");
              PollTick; SettleBody 1 env json]))
  = {| isConnected := false;
       lastUpdate := Some (Date_parse rt "2026-01-14T09:03:00.102Z");
       isChecking := false;
       error := Some "Invalid JSON response from backend" |}
  /\ sensorData
       (hook (run rt initialWorld
                [PollTick; Settle 0 env sampleGoodOutcome; Refresh;
                 Headers 1 (sampleResponse (JSNum (Int 100)) (JSNum (Int 200))
                              "Connected");
                 PollTick; SettleBody 1 env json]))
     = {| soilMoisture := Int 2067; light := Int 2858 |}.
Proof. split; reflexivity. Qed.

(** The two awaits passed one after the other, undisturbed, give what the
    single [Settle] gives. *)
Example headers_then_body (rt : Runtime) (env : CycleEnv) :
  hook (run rt initialWorld
          [PollTick;
           Headers 0 (sampleResponse (JSNum (Int 2067)) (JSNum (Int 2858))
                        "Connected");
           SettleBody 0 env
             (Backend.json (sampleResponse (JSNum (Int 2067)) (JSNum (Int 2858))
                              "Connected"))])
  = hook (run rt initialWorld [PollTick; Settle 0 env sampleGoodOutcome]).
Proof. reflexivity. Qed.

(* ================================================================= *)
(** ** At most one request in flight *)

Lemma abort_aborts_all (held : option nat) (ps : list Pending) :
  Forall (fun p => aborted p = false -> held = Some (cid p)) ps ->
  Forall (fun p => aborted p = true) (abort held ps).
Proof.
  induction ps as [|p rest IH]; intros H.
  - destruct held; constructor.
  - apply Forall_cons_iff in H as [Hp Hrest]. specialize (IH Hrest).
    destruct held as [c|]; cbn [abort map] in *.
    + constructor; [|exact IH].
      destruct (Nat.eqb (cid p) c) eqn:E; [reflexivity|].
      destruct (aborted p) eqn:Ea; [reflexivity|].
      specialize (Hp eq_refl). injection Hp as ->.
      rewrite Nat.eqb_refl in E. discriminate.
    + constructor; [|exact IH].
      destruct (aborted p); [reflexivity|]. now specialize (Hp eq_refl).
Qed.

Lemma start_body_Forall (P : Pending -> Prop) (c : nat)
  (r : Backend.Response) (ps : list Pending) :
  (forall p, P p ->
     P {| cid := cid p; rendered := rendered p; aborted := aborted p;
          body_of := Some r |}) ->
  Forall P ps -> Forall P (start_body c r ps).
Proof.
  intros HP H. unfold start_body. apply Forall_map.
  eapply Forall_impl; [|exact H]. intros p Hp. cbn.
  destruct (Nat.eqb (cid p) c); [now apply HP | exact Hp].
Qed.

Lemma start_body_live (c : nat) (r : Backend.Response) (ps : list Pending) :
  List.length (live (start_body c r ps)) = List.length (live ps).
Proof.
  unfold live, start_body. induction ps as [|p ps IH]; [reflexivity|].
  cbn [map filter].
  destruct (Nat.eqb (cid p) c); cbn [aborted]; destruct (aborted p);
    cbn [negb List.length]; now rewrite ?IH.
Qed.

Lemma step_keeps_one_in_flight (rt : Runtime) (w : World) (e : Event) :
  one_in_flight w -> one_in_flight (step rt w e).
Proof.
  unfold one_in_flight. intros H.
  assert (Hinvoke : forall r,
    Forall (fun p => aborted p = false -> abortController (invoke r w) = Some (cid p))
           (pending (invoke r w))).
  { intros r. unfold invoke. destruct (fetchData_begin (hook w)); [|exact H].
    cbn [pending abortController]. apply Forall_app. split.
    - eapply Forall_impl; [|apply abort_aborts_all; exact H].
      cbn. intros p Ha Hn. congruence.
    - constructor; [|constructor]. reflexivity. }
  destruct (step_shape rt w e)
    as [-> | [[r ->] | [-> | [[c [r ->]] | [p [env [o [_ ->]]]]]]]].
  - exact H.
  - apply Hinvoke.
  - exact H.
  - cbn [pending abortController]. apply start_body_Forall; [|exact H].
    intros q Hq. exact Hq.
  - cbn [pending abortController]. unfold drop_pending.
    rewrite Forall_forall in *. intros q Hin.
    apply filter_In in Hin as [Hin _]. now apply H.
Qed.

(** However the calls are dispatched and settled, at most one request is
    live: any two suspended calls that are not aborted are the same call. *)
Lemma reachable_one_in_flight (rt : Runtime) (events : list Event) :
  forall w, one_in_flight w -> one_in_flight (run rt w events).
Proof.
  unfold run. induction events as [|e rest IH]; intros w H; cbn [fold_left].
  - exact H.
  - apply IH. now apply step_keeps_one_in_flight.
Qed.

Lemma live_calls_coincide (rt : Runtime) (events : list Event) (p q : Pending) :
  In p (pending (run rt initialWorld events)) ->
  In q (pending (run rt initialWorld events)) ->
  aborted p = false -> aborted q = false -> cid p = cid q.
Proof.
  intros Hp Hq Ap Aq.
  assert (H : one_in_flight (run rt initialWorld events))
    by (apply reachable_one_in_flight; constructor).
  unfold one_in_flight in H. rewrite Forall_forall in H.
  pose proof (H p Hp Ap) as E1. pose proof (H q Hq Aq) as E2. congruence.
Qed.

(* ================================================================= *)
(** ** Fetcher: outcomes *)

Lemma validateADCValue_Ok_iff (v : JSValue) (field : string) :
  (exists r, validateADCValue v field = Ok r) <-> is_number_not_NaN v = true.
Proof.
  split.
  - intros [r H]. destruct (is_number_not_NaN v) eqn:E; [reflexivity|].
    destruct (validateADCValue_refused v field E) as [text Ht]. congruence.
  - intros H. destruct (validateADCValue_accepted v field H) as [z [_ Hz]].
    eauto.
Qed.

Lemma validateADCValue_throws_parse (v : JSValue) (field : string) (e : JSError) :
  validateADCValue v field = Throw e -> exists m, e = ESP32ParseError m.
Proof.
  intros H. destruct (is_number_not_NaN v) eqn:E.
  - destruct (validateADCValue_accepted v field E) as [z [_ Hz]]. congruence.
  - destruct (validateADCValue_refused v field E) as [text Ht].
    rewrite Ht in H. injection H as <-. eauto.
Qed.

Lemma transformBackendData_throws_parse (rt : Runtime)
  (r : Backend.BackendAPIResponse) (e : JSError) :
  transformBackendData rt r = Throw e -> exists m, e = ESP32ParseError m.
Proof.
  unfold transformBackendData.
  destruct (Backend.success r); [destruct (Backend.latest r) as [reading|]|];
    try (intros H; injection H as <-; eauto; fail).
  destruct (validateADCValue (Backend.soilValue reading) "soilValue") eqn:Es;
    cbn [bind].
  - destruct (validateADCValue (Backend.ldrValue reading) "ldrValue") eqn:El;
      cbn [bind]; [discriminate|].
    intros H. injection H as <-. eapply validateADCValue_throws_parse; eauto.
  - intros H. injection H as <-. eapply validateADCValue_throws_parse; eauto.
Qed.

(** What a successful call went through. *)
Lemma fetch_Ok_inv (config : ESP32Config) (rt : Runtime)
  (outcome : FetchOutcome) (ext : Backend.ExtendedSensorData) :
  fetchSensorData_resume config rt outcome = Ok ext ->
  exists resp body reading,
    outcome = Responded resp
    /\ Backend.ok resp = true
    /\ Backend.json resp = Some (JsonObject body)
    /\ Backend.success body = true
    /\ Backend.latest body = Some reading
    /\ validateADCValue (Backend.soilValue reading) "soilValue"
       = Ok (Backend.soilMoisture ext)
    /\ validateADCValue (Backend.ldrValue reading) "ldrValue"
       = Ok (Backend.light ext)
    /\ Backend.isESP32Online ext
       = String.eqb (Backend.deviceStatus body) "Connected".
Proof.
  unfold fetchSensorData_resume, parseResponse.
  destruct outcome as [e|resp]; cbn [bind try_catch].
  - destruct e; discriminate.
  - destruct (Backend.ok resp) eqn:Hok; cbn [negb]; [|discriminate].
    destruct (Backend.json resp) as [[|body]|] eqn:Hjson; cbn [bind try_catch];
      try discriminate.
    unfold transformBackendData.
    destruct (Backend.success body) eqn:Hs;
      [destruct (Backend.latest body) as [reading|] eqn:Hl|];
      cbn [try_catch]; try discriminate.
    destruct (validateADCValue (Backend.soilValue reading) "soilValue")
      as [s|es] eqn:Es; cbn [bind].
    + destruct (validateADCValue (Backend.ldrValue reading) "ldrValue")
        as [l|el] eqn:El; cbn [bind try_catch].
      * intros H. injection H as <-. exists resp, body, reading.
        repeat split; assumption.
      * destruct (validateADCValue_throws_parse _ _ _ El) as [m ->]. discriminate.
    + destruct (validateADCValue_throws_parse _ _ _ Es) as [m ->]. discriminate.
Qed.

(** X1. Whatever the network does, [fetchSensorData] either returns or
    throws one of its three typed errors: a connection error, a parse error,
    or a timeout error carrying the configured timeout. No raw [AbortError],
    [TypeError] or other exception leaves it. *)
Theorem fetch_throws_only_typed_errors (config : ESP32Config) (rt : Runtime)
  (outcome : FetchOutcome) :
  match fetchSensorData_resume config rt outcome with
  | Ok _ => True
  | Throw (ESP32ConnectionError _) => True
  | Throw (ESP32ParseError _) => True
  | Throw (ESP32TimeoutError t) => t = timeout config
  | Throw _ => False
  end.
Proof.
  unfold fetchSensorData_resume, parseResponse.
  destruct outcome as [e|resp]; cbn [bind try_catch].
  - destruct e; cbn; auto.
  - destruct (Backend.ok resp); cbn [negb]; [|exact I].
    destruct (Backend.json resp) as [[|body]|]; cbn [bind try_catch]; try exact I.
    destruct (transformBackendData rt body) as [ext|e] eqn:E; cbn [try_catch];
      [exact I|].
    destruct (transformBackendData_throws_parse rt body e E) as [m ->]. exact I.
Qed.

(** X2. [checkConnection] answers true exactly when the response has an ok
    status, its body parses to an object with a truthy [success] and a
    [latest] reading, and both ADC fields are numbers other than NaN. The
    declared [deviceStatus] plays no part: an offline device still counts as
    reachable. *)
Theorem checkConnection_true_iff (rt : Runtime) (outcome : FetchOutcome) :
  checkConnection_resume ESP32_CONFIG rt outcome = true
  <-> exists resp body reading,
        outcome = Responded resp
        /\ Backend.ok resp = true
        /\ Backend.json resp = Some (JsonObject body)
        /\ Backend.success body = true
        /\ Backend.latest body = Some reading
        /\ is_number_not_NaN (Backend.soilValue reading) = true
        /\ is_number_not_NaN (Backend.ldrValue reading) = true.
Proof.
  unfold checkConnection_resume. split.
  - destruct (fetchSensorData_resume ESP32_CONFIG rt outcome) as [ext|e] eqn:E;
      [intros _|discriminate].
    destruct (fetch_Ok_inv _ _ _ _ E)
      as [resp [body [reading [-> [Hok [Hj [Hs [Hl [Vs [Vl _]]]]]]]]]].
    exists resp, body, reading. repeat split; try assumption.
    + apply (validateADCValue_Ok_iff _ "soilValue"). eauto.
    + apply (validateADCValue_Ok_iff _ "ldrValue"). eauto.
  - intros [resp [body [reading [-> [Hok [Hj [Hs [Hl [Ns Nl]]]]]]]]].
    apply (validateADCValue_Ok_iff _ "soilValue") in Ns as [s Vs].
    apply (validateADCValue_Ok_iff _ "ldrValue") in Nl as [l Vl].
    destruct (fetch_succeeds rt resp body reading s l Hok Hj Hs Hl Vs Vl)
      as [ext [-> _]].
    reflexivity.
Qed.

Example offline_device_is_reachable :
  checkConnection_resume ESP32_CONFIG sampleRuntime
    (Responded (sampleResponse (JSNum (Int 2067)) (JSNum (Int 2858))
                  "Disconnected"))
  = true.
Proof. reflexivity. Qed.

Lemma fetch_Ok_in_range (config : ESP32Config) (rt : Runtime)
  (outcome : FetchOutcome) (ext : Backend.ExtendedSensorData) :
  fetchSensorData_resume config rt outcome = Ok ext ->
  exists a b,
    0 <= a <= 4095 /\ 0 <= b <= 4095
    /\ Backend.soilMoisture ext = Int a /\ Backend.light ext = Int b.
Proof.
  intros H.
  destruct (fetch_Ok_inv _ _ _ _ H)
    as [resp [body [reading [_ [_ [_ [_ [_ [Vs [Vl _]]]]]]]]]].
  destruct (validateADCValue_range _ _ _ Vs) as [a [Ha Ea]].
  destruct (validateADCValue_range _ _ _ Vl) as [b [Hb Eb]].
  exists a, b. repeat split; (lia || assumption).
Qed.

(** X3. Every reading that [fetchSensorData] returns has both fields
    integers of the ADC range [[0, 4095]]. *)
Theorem fetched_reading_in_ADC_range (config : ESP32Config) (rt : Runtime)
  (outcome : FetchOutcome) (ext : Backend.ExtendedSensorData) :
  fetchSensorData_resume config rt outcome = Ok ext ->
  exists a b,
    0 <= a <= 4095 /\ 0 <= b <= 4095
    /\ Backend.soilMoisture ext = Int a /\ Backend.light ext = Int b.
Proof. apply fetch_Ok_in_range. Qed.

Lemma fetched_reading_in_ADC_range_witness :
  exists a b,
    0 <= a <= 4095 /\ 0 <= b <= 4095
    /\ Int 4095 = Int a /\ Int 0 = Int b.
Proof.
  apply (fetched_reading_in_ADC_range ESP32_CONFIG sampleRuntime
           (Responded (sampleResponse (JSNum (Int 5000)) (JSNum (Int (-10)))
                         "Connected"))
           {| Backend.soilMoisture := Int 4095;
              Backend.light := Int 0;
              Backend.receivedAt := Some (DateAt 1768381380102);
              Backend.ext_deviceId := Some "ESP32_Plant_Monitor";
              Backend.isESP32Online := true |}).
  reflexivity.
Defined.

(** X4. How each failure of a fetch is reported. A network failure and a
    body that parses to [null] both come out as the connection error
    "Failed to connect to backend API"; an abort as a timeout carrying the
    configured value; a status that is not ok as "HTTP status: text" whatever
    the body holds; an unreadable body as the invalid-JSON parse error; a body
    without success or without a reading as a parse error with the backend's
    own error text, or "No reading data available" when that text is missing
    or empty; and when both ADC fields are refused the message names
    [soilValue]. *)
Theorem fetch_failure_reports :
  (forall rt m,
     fetchSensorData_resume ESP32_CONFIG rt (Rejected (TypeError m))
     = Throw (ESP32ConnectionError "Failed to connect to backend API"))
  /\ (forall rt,
        fetchSensorData_resume ESP32_CONFIG rt (Rejected AbortError)
        = Throw (ESP32TimeoutError 15000)
        /\ message_of (ESP32TimeoutError 15000)
           = "Request timed out after 15000ms")
  /\ (forall rt resp,
        Backend.ok resp = false ->
        fetchSensorData_resume ESP32_CONFIG rt (Responded resp)
        = Throw (ESP32ConnectionError
                   ("HTTP " ++ Z_toString (Backend.status resp) ++ ": "
                    ++ Backend.statusText resp)))
  /\ (forall rt resp,
        Backend.ok resp = true -> Backend.json resp = None ->
        fetchSensorData_resume ESP32_CONFIG rt (Responded resp)
        = Throw (ESP32ParseError "Invalid JSON response from backend"))
  /\ (forall rt resp,
        Backend.ok resp = true -> Backend.json resp = Some JsonNull ->
        fetchSensorData_resume ESP32_CONFIG rt (Responded resp)
        = Throw (ESP32ConnectionError "Failed to connect to backend API"))
  /\ (forall rt resp body,
        Backend.ok resp = true -> Backend.json resp = Some (JsonObject body) ->
        Backend.success body = false \/ Backend.latest body = None ->
        fetchSensorData_resume ESP32_CONFIG rt (Responded resp)
        = Throw (ESP32ParseError
                   (string_or (Backend.error body) "No reading data available")))
  /\ string_or (Some "") "No reading data available" = "No reading data available"
  /\ (forall rt soilValue ldrValue deviceStatus,
        is_number_not_NaN soilValue = false ->
        is_number_not_NaN ldrValue = false ->
        exists text,
          fetchSensorData_resume ESP32_CONFIG rt
            (Responded (sampleResponse soilValue ldrValue deviceStatus))
          = Throw (ESP32ParseError ("Invalid soilValue value: " ++ text))).
Proof.
  repeat apply conj.
  - reflexivity.
  - intros rt. split; reflexivity.
  - intros rt resp Hok. unfold fetchSensorData_resume. cbn [bind].
    rewrite Hok. reflexivity.
  - intros rt resp Hok Hj. unfold fetchSensorData_resume, parseResponse.
    cbn [bind]. rewrite Hok, Hj. reflexivity.
  - intros rt resp Hok Hj. unfold fetchSensorData_resume, parseResponse.
    cbn [bind]. rewrite Hok, Hj. reflexivity.
  - intros rt resp body Hok Hj Hbad.
    unfold fetchSensorData_resume, parseResponse, transformBackendData.
    cbn [bind]. rewrite Hok, Hj. cbn [negb bind].
    destruct Hbad as [-> | ->]; [|destruct (Backend.success body)]; reflexivity.
  - reflexivity.
  - intros rt sv lv ds Hs _.
    destruct (validateADCValue_refused sv "soilValue" Hs) as [text E].
    exists text.
    eapply refused_field_fails_fetch; try reflexivity. left. exact E.
Qed.

Lemma fetch_failure_reports_witness :
  fetchSensorData_resume ESP32_CONFIG sampleRuntime
    (Responded {| Backend.ok := false; Backend.status := 503;
                  Backend.statusText := "Service Unavailable";
                  Backend.json := None |})
  = Throw (ESP32ConnectionError "HTTP 503: Service Unavailable").
Proof.
  apply (proj1 (proj2 (proj2 fetch_failure_reports))). reflexivity.
Defined.

(* ================================================================= *)
(** ** Acquisition loop: what every reachable state satisfies *)

Lemma default_reading_in_ADC_range : reading_in_ADC_range DEFAULT_MOCK_DATA.
Proof. exists 1200, 3200. repeat split; lia. Qed.

Lemma fetchData_resume_keeps_invariant (rt : Runtime) (rendered : ConnectionState)
  (env : CycleEnv) (outcome : FetchOutcome) (h : HookState) :
  hook_invariant h ->
  hook_invariant
    (fetchData_resume rt rendered env
       (fetchSensorData_resume ESP32_CONFIG rt outcome) h).
Proof.
  intros [Hh [Hr Hc]]. unfold fetchData_resume, acquire.
  cbn [DATA_SOURCE_MODE].
  destruct (fetchSensorData_resume ESP32_CONFIG rt outcome) as [ext|e] eqn:E;
    cbn [bind]; destruct (isMountedRef h); cbn [negb];
    try (repeat split; assumption).
  - destruct (fetch_Ok_in_range _ _ _ _ E) as [a [b [Ha [Hb [Ea Eb]]]]].
    repeat split; cbn [historyData sensorData connectionState isConnected error].
    + apply appendPoint_length.
    + exists a, b. rewrite Ea, Eb. repeat split; lia.
    + intros ->. reflexivity.
  - destruct (initialFetchDone h); cbn [negb];
      repeat split; cbn [historyData sensorData connectionState isConnected error];
      try assumption; try discriminate.
    + rewrite generateMockHistoryData_length. unfold HISTORY_MAX_POINTS. lia.
    + apply default_reading_in_ADC_range.
Qed.

Lemma step_keeps_invariant (rt : Runtime) (w : World) (e : Event) :
  hook_invariant (hook w) -> hook_invariant (hook (step rt w e)).
Proof.
  intros H.
  destruct (step_shape rt w e)
    as [-> | [[r ->] | [-> | [[c [r ->]] | [p [env [o [_ ->]]]]]]]].
  - exact H.
  - unfold invoke, fetchData_begin. destruct (isMountedRef (hook w)); cbn [negb hook];
      [|exact H].
    destruct H as [Hh [Hr Hc]]. repeat split; try assumption.
  - exact H.
  - exact H.
  - cbn [hook]. now apply fetchData_resume_keeps_invariant.
Qed.

Lemma run_keeps_invariant (rt : Runtime) (events : list Event) :
  forall w, hook_invariant (hook w) -> hook_invariant (hook (run rt w events)).
Proof.
  unfold run. induction events as [|e rest IH]; intros w H; cbn [fold_left].
  - exact H.
  - apply IH. now apply step_keeps_invariant.
Qed.

Lemma initial_invariant : hook_invariant (hook initialWorld).
Proof.
  split; [|split].
  - cbn. unfold HISTORY_MAX_POINTS. lia.
  - apply default_reading_in_ADC_range.
  - discriminate.
Qed.

(** X6. However ticks, refreshes, settlements and the teardown follow one
    another, the history never holds more than 30 points, the mock seeding
    included. *)
Theorem reachable_history_bounded (rt : Runtime) (events : list Event) :
  (List.length (historyData (hook (run rt initialWorld events)))
   <= HISTORY_MAX_POINTS)%nat.
Proof. apply (run_keeps_invariant rt events initialWorld initial_invariant). Qed.

(** X7. In every state the hook reaches, both fields of the current reading
    are integers of the ADC range [[0, 4095]]. *)
Theorem reachable_reading_in_ADC_range (rt : Runtime) (events : list Event) :
  reading_in_ADC_range (sensorData (hook (run rt initialWorld events))).
Proof. apply (run_keeps_invariant rt events initialWorld initial_invariant). Qed.

(** X8. In every state the hook reaches, [isConnected] and a non-null
    [error] exclude each other: whenever the state says connected, [error] is
    null. *)
Theorem reachable_connected_has_no_error (rt : Runtime) (events : list Event) :
  isConnected (connectionState (hook (run rt initialWorld events))) = true ->
  error (connectionState (hook (run rt initialWorld events))) = None.
Proof. apply (run_keeps_invariant rt events initialWorld initial_invariant). Qed.

Lemma reachable_connected_has_no_error_witness :
  isConnected (connectionState
                 (hook (run sampleRuntime initialWorld
                          [PollTick; Settle 0 sampleEnv sampleGoodOutcome])))
  = true
  /\ error (connectionState
              (hook (run sampleRuntime initialWorld
                       [PollTick; Settle 0 sampleEnv sampleGoodOutcome])))
     = None.
Proof.
  split; [reflexivity|].
  apply (reachable_connected_has_no_error sampleRuntime
           [PollTick; Settle 0%nat sampleEnv sampleGoodOutcome]).
  reflexivity.
Defined.

(* ================================================================= *)
(** ** Acquisition loop: teardown *)

Lemma fetchData_resume_unmounted (rt : Runtime) (rendered : ConnectionState)
  (env : CycleEnv) (fetched : Result Backend.ExtendedSensorData) (h : HookState) :
  isMountedRef h = false -> fetchData_resume rt rendered env fetched h = h.
Proof.
  intros Hm. unfold fetchData_resume.
  destruct (acquire env fetched) as [[[d o] r]|e]; rewrite Hm; reflexivity.
Qed.

Lemma step_unmounted (rt : Runtime) (w : World) (e : Event) :
  isMountedRef (hook w) = false -> hook (step rt w e) = hook w.
Proof.
  intros Hm.
  destruct (step_shape rt w e)
    as [-> | [[r ->] | [-> | [[c [r ->]] | [p [env [o [_ ->]]]]]]]].
  - reflexivity.
  - unfold invoke, fetchData_begin. now rewrite Hm.
  - cbn [hook]. destruct (hook w) as [d hs cs m f]. cbn in *. now subst m.
  - reflexivity.
  - cbn [hook]. now apply fetchData_resume_unmounted.
Qed.

Lemma run_unmounted (rt : Runtime) (events : list Event) :
  forall w, isMountedRef (hook w) = false -> hook (run rt w events) = hook w.
Proof.
  unfold run. induction events as [|e rest IH]; intros w Hm; cbn [fold_left].
  - reflexivity.
  - rewrite IH by (rewrite step_unmounted; assumption).
    now apply step_unmounted.
Qed.

(** X5. After the teardown nothing touches the hook's state any more:
    whatever ticks, refreshes and settlements follow, calls still in flight
    included, reading, history, connection state and both refs stay as the
    teardown left them. *)
Theorem teardown_freezes_state (rt : Runtime) (w : World) (events : list Event) :
  hook (run rt w (Unmount :: events)) = hook (step rt w Unmount).
Proof.
  change (run rt w (Unmount :: events)) with (run rt (step rt w Unmount) events).
  apply run_unmounted. reflexivity.
Qed.

Example fetch_in_flight_at_teardown :
  hook (run sampleRuntime initialWorld
          [PollTick; Unmount; Settle 0 sampleEnv sampleGoodOutcome; PollTick])
  = {| sensorData := DEFAULT_MOCK_DATA;
       historyData := [];
       connectionState := initialConnectionState;
       isMountedRef := false;
       initialFetchDone := false |}.
Proof. reflexivity. Qed.

(* ================================================================= *)
(** ** Acquisition loop: live calls *)

Lemma filter_filter_length {A : Type} (f g : A -> bool) (l : list A) :
  (List.length (filter f (filter g l)) <= List.length (filter f l))%nat.
Proof.
  induction l as [|x l IH]; cbn [filter]; [lia|].
  destruct (g x), (f x) eqn:Ef; cbn [filter List.length]; rewrite ?Ef;
    cbn [List.length]; lia.
Qed.

Lemma live_all_aborted (ps : list Pending) :
  Forall (fun p => aborted p = true) ps -> live ps = [].
Proof.
  unfold live. induction 1 as [|p ps Hp _ IH]; cbn [filter]; [reflexivity|].
  rewrite Hp. exact IH.
Qed.

Lemma step_keeps_one_live (rt : Runtime) (w : World) (e : Event) :
  one_in_flight w ->
  (List.length (live (pending w)) <= 1)%nat ->
  (List.length (live (pending (step rt w e))) <= 1)%nat.
Proof.
  intros Hone Hlen.
  assert (Hinvoke : forall r,
            (List.length (live (pending (invoke r w))) <= 1)%nat).
  { intros r. unfold invoke. destruct (fetchData_begin (hook w)); [|exact Hlen].
    cbn [pending]. unfold live. rewrite filter_app. fold (live (abort (abortController w) (pending w))).
    rewrite live_all_aborted by (apply abort_aborts_all; exact Hone).
    cbn. lia. }
  destruct (step_shape rt w e)
    as [-> | [[r ->] | [-> | [[c [r ->]] | [p [env [o [_ ->]]]]]]]].
  - exact Hlen.
  - apply Hinvoke.
  - exact Hlen.
  - cbn [pending]. now rewrite start_body_live.
  - cbn [pending]. unfold live, drop_pending.
    etransitivity; [apply filter_filter_length | exact Hlen].
Qed.

Lemma run_keeps_one_live (rt : Runtime) (events : list Event) :
  forall w, one_in_flight w ->
            (List.length (live (pending w)) <= 1)%nat ->
            (List.length (live (pending (run rt w events))) <= 1)%nat.
Proof.
  unfold run. induction events as [|e rest IH]; intros w H1 H2; cbn [fold_left].
  - exact H2.
  - apply IH; [now apply step_keeps_one_in_flight | now apply step_keeps_one_live].
Qed.

(** X9. However calls are dispatched and settled, at most one suspended
    call has a controller that was not aborted: every dispatch aborts the call
    before it, so the service never has two live requests. *)
Theorem at_most_one_live_call (rt : Runtime) (events : list Event) :
  (List.length (live (pending (run rt initialWorld events))) <= 1)%nat.
Proof.
  apply run_keeps_one_live; [constructor | cbn; lia].
Qed.

(* ================================================================= *)
(** ** Acquisition loop: the successful cycle *)

Lemma slice_last_snoc {A : Type} (n : nat) (l : list A) (x : A) :
  (0 < n)%nat -> exists front, slice_last n (l ++ [x]) = (front ++ [x])%list.
Proof.
  intros Hn. unfold slice_last. destruct n as [|n]; [lia|].
  exists (skipn (List.length l - n) l).
  rewrite length_app, skipn_app. cbn [List.length].
  replace (List.length l + 1 - S n)%nat with (List.length l - n)%nat by lia.
  replace (List.length l - n - List.length l)%nat with 0%nat by lia.
  reflexivity.
Qed.

(** X10. After a successful cycle the newest point of the history is the
    reading just stored: its two values are those of the current reading, it
    is the last element of the history, and its timestamp is the time of
    [lastUpdate], which is not null. *)
Theorem success_appends_current_reading (rt : Runtime)
  (rendered : ConnectionState) (env : CycleEnv)
  (ext : Backend.ExtendedSensorData) (h : HookState) :
  isMountedRef h = true ->
  exists front point stamp,
    historyData (fetchData_resume rt rendered env (Ok ext) h)
    = (front ++ [point])%list
    /\ History.soilMoisture point
       = soilMoisture (sensorData (fetchData_resume rt rendered env (Ok ext) h))
    /\ History.light point
       = light (sensorData (fetchData_resume rt rendered env (Ok ext) h))
    /\ lastUpdate (connectionState (fetchData_resume rt rendered env (Ok ext) h))
       = Some stamp
    /\ History.timestamp point = getTime stamp
    /\ sensorData (fetchData_resume rt rendered env (Ok ext) h)
       = {| soilMoisture := Backend.soilMoisture ext;
            light := Backend.light ext |}.
Proof.
  intros Hm. unfold fetchData_resume, acquire. cbn [DATA_SOURCE_MODE bind].
  rewrite Hm. cbn [negb historyData sensorData connectionState lastUpdate].
  unfold addHistoryPoint, appendPoint.
  destruct (slice_last_snoc HISTORY_MAX_POINTS (historyData h)
              (createHistoryPoint rt (DateAt (now_ms env))
                 {| soilMoisture := Backend.soilMoisture ext;
                    light := Backend.light ext |}
                 (Some match Backend.receivedAt ext with
                       | Some d => d
                       | None => DateAt (now_ms env)
                       end)))
    as [front Hfront]; [unfold HISTORY_MAX_POINTS; lia|].
  eexists front, _, _. split; [exact Hfront|]. repeat split.
Qed.

Lemma success_appends_current_reading_witness :
  exists front point stamp,
    historyData (hook sampleSettledWorld) = (front ++ [point])%list
    /\ History.soilMoisture point = soilMoisture (sensorData (hook sampleSettledWorld))
    /\ History.light point = light (sensorData (hook sampleSettledWorld))
    /\ lastUpdate (connectionState (hook sampleSettledWorld)) = Some stamp
    /\ History.timestamp point = getTime stamp
    /\ sensorData (hook sampleSettledWorld)
       = {| soilMoisture := Int 2067; light := Int 2858 |}.
Proof.
  apply (success_appends_current_reading sampleRuntime initialConnectionState
           sampleEnv
           {| Backend.soilMoisture := Int 2067;
              Backend.light := Int 2858;
              Backend.receivedAt := Some (DateAt 1768381380102);
              Backend.ext_deviceId := Some "ESP32_Plant_Monitor";
              Backend.isESP32Online := true |}
           initialHook).
  reflexivity.
Defined.

Lemma superseded_cycle_ignores_response_witness :
  sensorData
    (hook (step sampleRuntime sampleBodyOverlapWorld
             (SettleBody 1 sampleEnv
                (Backend.json (sampleResponse (JSNum (Int 100)) (JSNum (Int 200))
                                 "Connected")))))
  = {| soilMoisture := Int 2067; light := Int 2858 |}
  /\ sensorData
       (hook (step sampleRuntime sampleOverlapWorld
                (Settle 1 sampleEnv sampleGoodOutcome)))
     = {| soilMoisture := Int 2067; light := Int 2858 |}.
Proof.
  split.
  - exact (proj1 (proj2 (proj2 superseded_cycle_ignores_response)
                    sampleRuntime sampleBodyOverlapWorld
                    (SettleBody 1 sampleEnv
                       (Backend.json (sampleResponse (JSNum (Int 100))
                                        (JSNum (Int 200)) "Connected")))
                    _ _ _ eq_refl eq_refl eq_refl)).
  - exact (proj1 (proj2 (proj2 superseded_cycle_ignores_response)
                    sampleRuntime sampleOverlapWorld
                    (Settle 1 sampleEnv sampleGoodOutcome)
                    _ _ _ eq_refl eq_refl eq_refl)).
Defined.

Lemma refresh_failure_keeps_lastUpdate_witness :
  lastUpdate (connectionState
                (hook (run sampleRuntime sampleSettledWorld
                         [Refresh; Settle 1 sampleEnv sampleNetworkFailure])))
  = Some (DateAt 1768381380102).
Proof.
  exact (refresh_failure_keeps_lastUpdate sampleRuntime sampleSettledWorld
           sampleEnv sampleNetworkFailure
           (ESP32ConnectionError "Failed to connect to backend API")
           eq_refl eq_refl eq_refl).
Defined.

(* ================================================================= *)
(** ** Mock readings and mock history *)

Lemma clamp_floor_in_range (x : JSNumber) :
  isNaN x = false ->
  exists z, 0 <= z <= 4095 /\ clampToADCRange (Math_floor x) = Int z.
Proof.
  destruct x as [| | |q]; intros H; try discriminate.
  - exists 4095. split; [lia | reflexivity].
  - exists 0. split; [lia | reflexivity].
  - unfold clampToADCRange, ADC_MIN, ADC_MAX, Math_floor.
    rewrite clamp_Int. eexists. split; [|reflexivity]. lia.
Qed.

(** X11. A generated reading, random or patterned, has both fields integers
    of the ADC range whenever the sums it is built from are numbers; the clamp
    itself lets NaN through. *)
Theorem mock_readings_in_ADC_range :
  (forall sums,
     isNaN (fst sums) = false -> isNaN (snd sums) = false ->
     reading_in_ADC_range (generateRandomSensorData sums))
  /\ (forall pattern index,
        isNaN (fst (pattern index)) = false ->
        isNaN (snd (pattern index)) = false ->
        reading_in_ADC_range (generatePatternedSensorData pattern index))
  /\ clampToADCRange NaN = NaN.
Proof.
  repeat apply conj.
  - intros sums H1 H2.
    destruct (clamp_floor_in_range _ H1) as [a [Ha Ea]].
    destruct (clamp_floor_in_range _ H2) as [b [Hb Eb]].
    exists a, b. unfold generateRandomSensorData. rewrite Ea, Eb.
    repeat split; lia.
  - intros pattern index H1 H2.
    destruct (clamp_floor_in_range _ H1) as [a [Ha Ea]].
    destruct (clamp_floor_in_range _ H2) as [b [Hb Eb]].
    exists a, b. unfold generatePatternedSensorData. rewrite Ea, Eb.
    repeat split; lia.
  - reflexivity.
Qed.

Lemma mock_readings_in_ADC_range_witness :
  reading_in_ADC_range (generateRandomSensorData (Fin (27999 # 10), PosInf)).
Proof.
  apply (proj1 mock_readings_in_ADC_range); reflexivity.
Defined.

Lemma mockHistoryLoop_spec (rt : Runtime) (pattern : Z -> Draw)
  (now intervalSeconds : Z) (remaining : nat) :
  forall data,
    mockHistoryLoop rt pattern now intervalSeconds remaining data
    = (data ++ map (mockPoint rt pattern now intervalSeconds)
                   (rev (seq 0 remaining)))%list.
Proof.
  induction remaining as [|i IH]; intros data.
  - cbn. now rewrite app_nil_r.
  - cbn [mockHistoryLoop]. rewrite IH, seq_S, rev_app_distr, <- app_assoc.
    reflexivity.
Qed.

(** X12. The mock history is exactly [points] points, oldest first: the
    point generated for the loop index [i] is stamped [i] intervals before
    now, [i] running from [points - 1] down to 0, so consecutive points are
    one interval apart and a non-empty history ends with a point stamped now.
    Its values are in the ADC range whenever the pattern's sums are numbers.
    With [points = 0] the history is empty. *)
Theorem mock_history_shape (rt : Runtime) (pattern : Z -> Draw)
  (now : Z) (points : nat) (intervalSeconds : Z) :
  generateMockHistoryData rt pattern now points intervalSeconds
  = map (mockPoint rt pattern now intervalSeconds) (rev (seq 0 points))
  /\ List.length (generateMockHistoryData rt pattern now points intervalSeconds)
     = points
  /\ map History.timestamp
       (generateMockHistoryData rt pattern now points intervalSeconds)
     = map (fun i => Int (now - Z.of_nat i * intervalSeconds * 1000))
           (rev (seq 0 points))
  /\ (forall n, points = S n ->
        exists front last,
          generateMockHistoryData rt pattern now points intervalSeconds
          = (front ++ [last])%list
          /\ History.timestamp last = Int now)
  /\ ((forall i, isNaN (fst (pattern i)) = false /\ isNaN (snd (pattern i)) = false) ->
      Forall point_in_ADC_range
        (generateMockHistoryData rt pattern now points intervalSeconds)).
Proof.
  assert (E : generateMockHistoryData rt pattern now points intervalSeconds
              = map (mockPoint rt pattern now intervalSeconds) (rev (seq 0 points))).
  { unfold generateMockHistoryData. now rewrite mockHistoryLoop_spec. }
  repeat apply conj.
  - exact E.
  - apply generateMockHistoryData_length.
  - rewrite E, map_map. reflexivity.
  - intros n ->. rewrite E. cbn [seq rev]. rewrite map_app. cbn [map].
    eexists _, _. split; [reflexivity|].
    cbn [mockPoint History.timestamp Z.of_nat]. f_equal. lia.
  - intros Hp. rewrite E. apply Forall_map, Forall_forall. intros i _.
    destruct (Hp (Z.of_nat i)) as [H1 H2].
    destruct (clamp_floor_in_range _ H1) as [a [Ha Ea]].
    destruct (clamp_floor_in_range _ H2) as [b [Hb Eb]].
    exists a, b. cbn [mockPoint History.soilMoisture History.light
                     generatePatternedSensorData soilMoisture light].
    rewrite Ea, Eb. repeat split; lia.
Qed.

Lemma mock_history_shape_witness :
  map History.timestamp
    (generateMockHistoryData sampleRuntime (pattern sampleEnv) 1000000 3 5)
  = [Int 990000; Int 995000; Int 1000000].
Proof.
  apply (proj1 (proj2 (proj2 (mock_history_shape sampleRuntime
                                (pattern sampleEnv) 1000000 3 5)))).
Defined.

(* ================================================================= *)
(** ** The mock service class *)

Lemma existsb_eqb_In (x : nat) (l : list nat) :
  existsb (Nat.eqb x) l = true <-> In x l.
Proof.
  rewrite existsb_exists. split.
  - intros [y [Hin E]]. apply Nat.eqb_eq in E. now subst.
  - intros H. exists x. split; [exact H | apply Nat.eqb_refl].
Qed.

Lemma set_add_NoDup (x : nat) (l : list nat) :
  NoDup l -> NoDup (MockService.set_add x l).
Proof.
  intros H. unfold MockService.set_add.
  destruct (existsb (Nat.eqb x) l) eqn:E; [exact H|].
  apply NoDup_app; [exact H | repeat constructor; intros [] |].
  intros y Hy [<-|[]]. apply existsb_eqb_In in Hy. congruence.
Qed.

Lemma set_delete_not_In (x : nat) (l : list nat) :
  ~ In x (MockService.set_delete x l).
Proof.
  unfold MockService.set_delete. intros H. apply filter_In in H as [_ H].
  rewrite Nat.eqb_refl in H. discriminate.
Qed.

Lemma mock_apply_keeps_invariant (s : MockService.State) (o : MockService.Op) :
  mock_service_invariant s -> mock_service_invariant (MockService.apply s o).
Proof.
  intros [Ht Hl]. destruct o as [| |c|c]; cbn [MockService.apply].
  - unfold MockService.start, MockService.stop.
    destruct (MockService.intervalId s) as [t|] eqn:E; split; cbn; try exact Hl.
    + rewrite Ht. cbn. now rewrite Nat.eqb_refl.
    + now rewrite Ht.
  - unfold MockService.stop.
    destruct (MockService.intervalId s) as [t|] eqn:E; split; cbn; try exact Hl.
    + rewrite Ht. cbn. now rewrite Nat.eqb_refl.
    + now rewrite Ht, E.
  - split; cbn; [exact Ht | now apply set_add_NoDup].
  - split; cbn; [exact Ht | now apply NoDup_filter].
Qed.

Lemma mock_run_keeps_invariant (ops : list MockService.Op) :
  forall s, mock_service_invariant s ->
            mock_service_invariant (MockService.run s ops).
Proof.
  unfold MockService.run. induction ops as [|o rest IH]; intros s H; cbn [fold_left].
  - exact H.
  - apply IH. now apply mock_apply_keeps_invariant.
Qed.

Lemma mock_initial_invariant : mock_service_invariant MockService.initial.
Proof. split; [reflexivity | constructor]. Qed.

(** X13. Whatever sequence of [start], [stop], [subscribe] and unsubscribe
    calls the mock service has seen, at most one interval timer is running,
    the one [intervalId] names: starting again clears the timer before it.
    After [stop] no timer runs, so no tick reaches any listener. *)
Theorem mock_service_single_timer (ops : list MockService.Op) :
  MockService.timers (MockService.run MockService.initial ops)
  = match MockService.intervalId (MockService.run MockService.initial ops) with
    | Some t => [t]
    | None => []
    end
  /\ MockService.timers
       (MockService.stop (MockService.run MockService.initial ops)) = []
  /\ (forall t sums,
        MockService.tick t sums
          (MockService.stop (MockService.run MockService.initial ops)) = []).
Proof.
  destruct (mock_run_keeps_invariant ops _ mock_initial_invariant) as [Ht _].
  assert (Hs : MockService.timers
                 (MockService.stop (MockService.run MockService.initial ops)) = []).
  { unfold MockService.stop.
    destruct (MockService.intervalId (MockService.run MockService.initial ops))
      as [t|] eqn:E; cbn.
    - rewrite Ht. cbn. now rewrite Nat.eqb_refl.
    - exact Ht. }
  repeat apply conj.
  - exact Ht.
  - exact Hs.
  - intros t sums. unfold MockService.tick. now rewrite Hs.
Qed.

(** X14. The listeners of the mock service behave as a set: subscribing a
    callback that is already subscribed changes nothing, a tick of the running
    timer calls every subscribed callback exactly once, and after its
    unsubscribe function has run a callback is not called, however often it
    had been subscribed. *)
Theorem mock_service_listeners (ops : list MockService.Op) (c : nat) :
  MockService.subscribe c
    (MockService.subscribe c (MockService.run MockService.initial ops))
  = MockService.subscribe c (MockService.run MockService.initial ops)
  /\ (forall t sums,
        MockService.intervalId
          (MockService.subscribe c (MockService.run MockService.initial ops))
        = Some t ->
        count_occ Nat.eq_dec
          (map fst (MockService.tick t sums
                      (MockService.subscribe c
                         (MockService.run MockService.initial ops)))) c
        = 1%nat)
  /\ (forall t sums,
        ~ In c (map fst (MockService.tick t sums
                           (MockService.unsubscribe c
                              (MockService.run MockService.initial ops))))).
Proof.
  pose proof (mock_run_keeps_invariant ops _ mock_initial_invariant) as Hinv.
  set (s := MockService.run MockService.initial ops) in *.
  assert (Hin : In c (MockService.set_add c (MockService.listeners s))).
  { unfold MockService.set_add.
    destruct (existsb (Nat.eqb c) (MockService.listeners s)) eqn:E.
    - now apply existsb_eqb_In.
    - apply in_or_app. right. now left. }
  repeat apply conj.
  - unfold MockService.subscribe. cbn. f_equal.
    unfold MockService.set_add at 1.
    now rewrite (proj2 (existsb_eqb_In _ _) Hin).
  - intros t sums Hid.
    destruct (mock_apply_keeps_invariant s (MockService.Subscribe c) Hinv)
      as [Ht Hnd].
    cbn [MockService.apply] in Ht, Hnd.
    unfold MockService.tick. rewrite Ht, Hid. cbn [existsb]. rewrite Nat.eqb_refl.
    cbn [orb]. rewrite map_map. cbn [fst]. rewrite map_id.
    apply NoDup_count_occ'; assumption.
  - intros t sums H. unfold MockService.tick in H.
    destruct (existsb (Nat.eqb t) _); [|exact H].
    rewrite map_map in H. cbn [fst] in H. rewrite map_id in H.
    now apply set_delete_not_In in H.
Qed.

Lemma mock_service_listeners_witness :
  count_occ Nat.eq_dec
    (map fst (MockService.tick 2 (Int 1000, Int 3000)
                (MockService.subscribe 7
                   (MockService.run MockService.initial
                      [MockService.Subscribe 7; MockService.Start;
                       MockService.Start; MockService.Subscribe 9])))) 7%nat
  = 1%nat.
Proof.
  apply (proj1 (proj2 (mock_service_listeners
                         [MockService.Subscribe 7; MockService.Start;
                          MockService.Start; MockService.Subscribe 9] 7%nat))).
  reflexivity.
Defined.

(* ================================================================= *)
(** ** WebSocket service: reconnection *)

Lemma ws_connect_frame (thrown : option string) (s : WSService.Service) :
  WSService.config (WSService.connect thrown s) = WSService.config s
  /\ WSService.reconnectAttempts (WSService.connect thrown s)
     = WSService.reconnectAttempts s
  /\ WSService.timers (WSService.connect thrown s) = WSService.timers s
  /\ WSService.reconnectTimeoutId (WSService.connect thrown s)
     = WSService.reconnectTimeoutId s.
Proof.
  unfold WSService.connect.
  destruct (match WSService.ws s with
            | Some k => WSService.readyStateOf k (WSService.sockets s)
            | None => None
            end) as [[| | |]|];
    destruct thrown; repeat split.
Qed.

Lemma ws_clear_timers (s : WSService.Service) :
  ws_timer_invariant s ->
  WSService.timers (WSService.clearReconnectTimeout s) = [].
Proof.
  intros [H | [t [H Hid]]]; unfold WSService.clearReconnectTimeout.
  - destruct (WSService.reconnectTimeoutId s); cbn; rewrite H; reflexivity.
  - rewrite Hid. cbn. rewrite H. cbn. now rewrite Nat.eqb_refl.
Qed.

Lemma ws_clear_frame (s : WSService.Service) :
  WSService.config (WSService.clearReconnectTimeout s) = WSService.config s
  /\ WSService.reconnectAttempts (WSService.clearReconnectTimeout s)
     = WSService.reconnectAttempts s.
Proof.
  unfold WSService.clearReconnectTimeout.
  destruct (WSService.reconnectTimeoutId s); split; reflexivity.
Qed.

Lemma ws_schedule_timer_invariant (s : WSService.Service) :
  ws_timer_invariant s -> ws_timer_invariant (WSService.scheduleReconnect s).
Proof.
  intros H. unfold WSService.scheduleReconnect.
  destruct (WSService.reconnectAttempts s
            >=? WSService.maxReconnectAttempts (WSService.config s));
    [exact H|].
  right. eexists. cbn [WSService.timers WSService.reconnectTimeoutId].
  rewrite (ws_clear_timers s H). split; reflexivity.
Qed.

Lemma ws_step_timer_invariant (s : WSService.Service) (e : WSService.Event) :
  ws_timer_invariant s -> ws_timer_invariant (WSService.step s e).
Proof.
  intros H. destruct e as [th| |k now|k|k|k now parsed|t th]; cbn [WSService.step].
  - destruct (ws_connect_frame th s) as [_ [_ [Et Ei]]].
    unfold ws_timer_invariant. rewrite Et, Ei. exact H.
  - left. cbn [WSService.disconnect WSService.timers]. now apply ws_clear_timers.
  - destruct (WSService.readyStateOf k (WSService.sockets s)) as [[| | |]|];
      exact H.
  - destruct (WSService.readyStateOf k (WSService.sockets s)) as [[| | |]|];
      try exact H; apply ws_schedule_timer_invariant; exact H.
  - destruct (WSService.readyStateOf k (WSService.sockets s)) as [[| | |]|];
      exact H.
  - destruct (WSService.readyStateOf k (WSService.sockets s)) as [[| | |]|];
      try exact H.
    destruct (WS.handleMessage now parsed (WSService.state s)) as [cs [ev|]];
      exact H.
  - destruct (existsb (Nat.eqb t) (WSService.timers s)) eqn:E; [|exact H].
    left.
    destruct (ws_connect_frame th
                {| WSService.config := WSService.config s;
                   WSService.ws := WSService.ws s;
                   WSService.sockets := WSService.sockets s;
                   WSService.reconnectAttempts := WSService.reconnectAttempts s + 1;
                   WSService.reconnectTimeoutId := WSService.reconnectTimeoutId s;
                   WSService.timers :=
                     filter (fun u => negb (Nat.eqb u t)) (WSService.timers s);
                   WSService.state := WSService.state s;
                   WSService.emitted := WSService.emitted s;
                   WSService.fresh := WSService.fresh s |})
      as [_ [_ [Et _]]].
    rewrite Et. cbn [WSService.timers].
    destruct H as [H | [u [H _]]]; rewrite H in *; cbn in *; [discriminate|].
    rewrite Bool.orb_false_r in E. apply Nat.eqb_eq in E. subst u.
    now rewrite Nat.eqb_refl.
Qed.

Lemma ws_step_attempts_invariant (c : WSService.WebSocketConfig)
  (s : WSService.Service) (e : WSService.Event) :
  ws_timer_invariant s -> ws_attempts_invariant c s ->
  ws_attempts_invariant c (WSService.step s e).
Proof.
  intros Ht [Hc [Ha Hp]].
  destruct e as [th| |k now|k|k|k now parsed|t th]; cbn [WSService.step].
  - destruct (ws_connect_frame th s) as [Ec [Ea [Et _]]].
    unfold ws_attempts_invariant. rewrite Ec, Ea, Et. auto.
  - unfold ws_attempts_invariant.
    cbn [WSService.disconnect WSService.config WSService.reconnectAttempts
         WSService.timers].
    rewrite (ws_clear_timers s Ht), (proj1 (ws_clear_frame s)).
    split; [exact Hc|]. split; [lia | congruence].
  - destruct (WSService.readyStateOf k (WSService.sockets s)) as [[| | |]|];
      try (split; [exact Hc | split; assumption]).
    split; [exact Hc|]. cbn. split; [lia|]. intros Hne. specialize (Hp Hne). lia.
  - assert (Hs : forall s', WSService.config s' = c ->
                   WSService.reconnectAttempts s' = WSService.reconnectAttempts s ->
                   WSService.timers s' = WSService.timers s ->
                   ws_timer_invariant s' ->
                   ws_attempts_invariant c (WSService.scheduleReconnect s')).
    { intros s' Ec Ea Et Hti. unfold WSService.scheduleReconnect.
      destruct (Z.geb_spec (WSService.reconnectAttempts s')
                  (WSService.maxReconnectAttempts (WSService.config s'))) as [Hge|Hlt].
      - unfold ws_attempts_invariant. rewrite Ec, Ea, Et. auto.
      - unfold ws_attempts_invariant.
        cbn [WSService.config WSService.reconnectAttempts WSService.timers].
        rewrite (proj1 (ws_clear_frame s')), (proj2 (ws_clear_frame s')).
        rewrite Ec in Hlt. rewrite Ea in *.
        split; [exact Ec|]. split; [lia|]. intros _. lia. }
    destruct (WSService.readyStateOf k (WSService.sockets s)) as [[| | |]|];
      try (split; [exact Hc | split; assumption]);
      apply Hs; try reflexivity; try exact Hc; exact Ht.
  - destruct (WSService.readyStateOf k (WSService.sockets s)) as [[| | |]|];
      split; try exact Hc; split; assumption.
  - destruct (WSService.readyStateOf k (WSService.sockets s)) as [[| | |]|];
      try (split; [exact Hc | split; assumption]).
    destruct (WS.handleMessage now parsed (WSService.state s)) as [cs [ev|]];
      split; try exact Hc; split; assumption.
  - destruct (existsb (Nat.eqb t) (WSService.timers s)) eqn:E;
      [|split; [exact Hc | split; assumption]].
    match goal with |- ws_attempts_invariant c (WSService.connect th ?s1) =>
      destruct (ws_connect_frame th s1) as [Ec [Ea [Et _]]] end.
    unfold ws_attempts_invariant. rewrite Ec, Ea, Et.
    cbn [WSService.config WSService.reconnectAttempts WSService.timers].
    assert (Hne : WSService.timers s <> [])
      by (intros Hnil; rewrite Hnil in E; discriminate).
    specialize (Hp Hne).
    split; [exact Hc|]. split; [lia|].
    destruct Ht as [Ht | [u [Ht _]]]; [contradiction|].
    rewrite Ht in *. cbn in E |- *. rewrite Bool.orb_false_r in E.
    apply Nat.eqb_eq in E. subst u. rewrite Nat.eqb_refl. cbn. congruence.
Qed.

Lemma ws_run_invariants (c : WSService.WebSocketConfig)
  (events : list WSService.Event) :
  forall s, ws_timer_invariant s -> ws_attempts_invariant c s ->
            ws_timer_invariant (WSService.run s events)
            /\ ws_attempts_invariant c (WSService.run s events).
Proof.
  unfold WSService.run.
  induction events as [|e rest IH]; intros s Ht Ha; cbn [fold_left].
  - now split.
  - apply IH; [now apply ws_step_timer_invariant
              | now apply ws_step_attempts_invariant].
Qed.

Lemma ws_initial_invariants (c : WSService.WebSocketConfig) :
  0 <= WSService.maxReconnectAttempts c ->
  ws_timer_invariant (WSService.initial c)
  /\ ws_attempts_invariant c (WSService.initial c).
Proof.
  intros H. split; [now left|]. split; [reflexivity|]. cbn. split; [lia|].
  congruence.
Qed.

(** X15. Whatever the sockets and the callers do, the reconnect counter
    stays between 0 and [maxReconnectAttempts], and at most one reconnect
    timeout is pending. *)
Theorem reconnect_attempts_bounded (c : WSService.WebSocketConfig)
  (events : list WSService.Event) :
  0 <= WSService.maxReconnectAttempts c ->
  0 <= WSService.reconnectAttempts (WSService.run (WSService.initial c) events)
    <= WSService.maxReconnectAttempts c
  /\ (List.length (WSService.timers (WSService.run (WSService.initial c) events))
      <= 1)%nat.
Proof.
  intros Hmax. destruct (ws_initial_invariants c Hmax) as [Ht Ha].
  destruct (ws_run_invariants c events _ Ht Ha) as [Ht' [_ [Ha' _]]].
  split; [exact Ha'|].
  destruct Ht' as [-> | [t [-> _]]]; cbn; lia.
Qed.

Lemma reconnect_attempts_bounded_witness :
  0 <= WSService.reconnectAttempts sampleExhaustedService <= 10
  /\ (List.length (WSService.timers sampleExhaustedService) <= 1)%nat.
Proof.
  apply (reconnect_attempts_bounded WSService.WEBSOCKET_CONFIG
           (WSService.Connect None :: WSService.failedRounds 10 1)).
  cbn. lia.
Defined.

Lemma setReadyState_ids (k : nat) (r : WSService.ReadyState)
  (l : list (nat * WSService.ReadyState)) :
  map fst (WSService.setReadyState k r l) = map fst l.
Proof.
  unfold WSService.setReadyState. rewrite map_map. apply map_ext.
  intros [i st]. cbn. destruct (Nat.eqb_spec i k); [now subst | reflexivity].
Qed.

Lemma ws_passive_step_gives_up (s : WSService.Service) (e : WSService.Event) :
  WSService.maxReconnectAttempts (WSService.config s)
  <= WSService.reconnectAttempts s ->
  WSService.timers s = [] ->
  WSService.passive e = true ->
  WSService.config (WSService.step s e) = WSService.config s
  /\ WSService.reconnectAttempts (WSService.step s e)
     = WSService.reconnectAttempts s
  /\ WSService.timers (WSService.step s e) = []
  /\ map fst (WSService.sockets (WSService.step s e))
     = map fst (WSService.sockets s)
  /\ WSService.ws (WSService.step s e) = WSService.ws s.
Proof.
  intros Hge Ht Hp.
  destruct e as [th| |k now|k|k|k now parsed|t th]; try discriminate;
    cbn [WSService.step].
  - assert (Hk : forall r,
      let s1 := WSService.scheduleReconnect
                  (WSService.with_state
                     {| isConnected := false;
                        lastUpdate := lastUpdate (WSService.state s);
                        isChecking := isChecking (WSService.state s);
                        error := error (WSService.state s) |}
                     [WS.ev_disconnect]
                     (WSService.with_sockets
                        (WSService.setReadyState k r (WSService.sockets s)) s)) in
      WSService.config s1 = WSService.config s
      /\ WSService.reconnectAttempts s1 = WSService.reconnectAttempts s
      /\ WSService.timers s1 = []
      /\ map fst (WSService.sockets s1) = map fst (WSService.sockets s)
      /\ WSService.ws s1 = WSService.ws s).
    { intros r. unfold WSService.scheduleReconnect.
      cbn [WSService.with_state WSService.with_sockets WSService.config
           WSService.reconnectAttempts].
      destruct (Z.geb_spec (WSService.reconnectAttempts s)
                  (WSService.maxReconnectAttempts (WSService.config s)));
        [|lia].
      cbn. rewrite setReadyState_ids. repeat split. exact Ht. }
    destruct (WSService.readyStateOf k (WSService.sockets s)) as [[| | |]|];
      try apply Hk; repeat split; exact Ht.
  - destruct (WSService.readyStateOf k (WSService.sockets s)) as [[| | |]|];
      repeat split; exact Ht.
  - destruct (WSService.readyStateOf k (WSService.sockets s)) as [[| | |]|];
      try (repeat split; exact Ht).
    destruct (WS.handleMessage now parsed (WSService.state s)) as [cs [ev|]];
      repeat split; exact Ht.
  - rewrite Ht. cbn [existsb]. repeat split. exact Ht.
Qed.

(** X16. Once the reconnect counter has reached [maxReconnectAttempts] and
    no timeout is pending, the service has given up: closes, errors, messages
    and stale timeouts never make it set a timeout or create a socket again;
    only an explicit [connect()] or [disconnect()], or a socket that still
    opens, changes that. *)
Theorem reconnection_gives_up (events : list WSService.Event) :
  forall s,
    WSService.maxReconnectAttempts (WSService.config s)
    <= WSService.reconnectAttempts s ->
    WSService.timers s = [] ->
    forallb WSService.passive events = true ->
    WSService.timers (WSService.run s events) = []
    /\ map fst (WSService.sockets (WSService.run s events))
       = map fst (WSService.sockets s)
    /\ WSService.ws (WSService.run s events) = WSService.ws s
    /\ WSService.reconnectAttempts (WSService.run s events)
       = WSService.reconnectAttempts s.
Proof.
  unfold WSService.run.
  induction events as [|e rest IH]; intros s Hge Ht Hp; cbn [fold_left].
  - repeat split. exact Ht.
  - cbn [forallb] in Hp. apply andb_prop in Hp as [He Hrest].
    destruct (ws_passive_step_gives_up s e Hge Ht He) as [Ec [Ea [Et' [Es Ew]]]].
    destruct (IH (WSService.step s e)) as [H1 [H2 [H3 H4]]];
      [rewrite Ec, Ea; exact Hge | exact Et' | exact Hrest |].
    rewrite H1, H2, H3, H4, Es, Ew, Ea. repeat split.
Qed.

Lemma reconnection_gives_up_witness :
  WSService.reconnectAttempts sampleExhaustedService = 10
  /\ WSService.timers
       (WSService.run sampleExhaustedService
          [WSService.SocketError 21; WSService.SocketClose 21;
           WSService.TimerFires 20 None])
     = []
  /\ map fst (WSService.sockets
                (WSService.run sampleExhaustedService
                   [WSService.SocketError 21; WSService.SocketClose 21;
                    WSService.TimerFires 20 None]))
     = map fst (WSService.sockets sampleExhaustedService).
Proof.
  split; [reflexivity|].
  destruct (reconnection_gives_up
              [WSService.SocketError 21; WSService.SocketClose 21;
               WSService.TimerFires 20 None]
              sampleExhaustedService)
    as [H1 [H2 _]]; [vm_compute; discriminate | reflexivity | reflexivity |].
  split; assumption.
Defined.

Lemma readyStateOf_set (k : nat) (r r0 : WSService.ReadyState)
  (l : list (nat * WSService.ReadyState)) :
  WSService.readyStateOf k l = Some r0 ->
  WSService.readyStateOf k (WSService.setReadyState k r l) = Some r.
Proof.
  unfold WSService.readyStateOf, WSService.setReadyState.
  induction l as [|[i st] l IH]; cbn [find map fst]; [discriminate|].
  destruct (Nat.eqb i k) eqn:E.
  - intros _. cbn [fst]. rewrite Nat.eqb_refl. reflexivity.
  - cbn [fst]. rewrite E. exact IH.
Qed.

Lemma ws_disconnect_fields (s : WSService.Service) (k : nat) :
  ws_timer_invariant s ->
  WSService.ws s = Some k ->
  WSService.disconnect s
  = {| WSService.config := WSService.config s;
       WSService.ws := None;
       WSService.sockets := WSService.closing k (WSService.sockets s);
       WSService.reconnectAttempts := 0;
       WSService.reconnectTimeoutId := None;
       WSService.timers := [];
       WSService.state := {| isConnected := false;
                             lastUpdate := lastUpdate (WSService.state s);
                             isChecking := false;
                             error := None |};
       WSService.emitted := WSService.emitted s;
       WSService.fresh := WSService.fresh s |}.
Proof.
  intros Ht Hws. pose proof (ws_clear_timers s Ht) as Hclear.
  unfold WSService.disconnect. unfold WSService.clearReconnectTimeout in *.
  destruct (WSService.reconnectTimeoutId s) eqn:E;
    cbn [WSService.config WSService.ws WSService.sockets WSService.timers
         WSService.reconnectTimeoutId WSService.state WSService.emitted
         WSService.fresh] in *;
    rewrite Hclear, Hws, ?E; reflexivity.
Qed.

(** X17. [disconnect()] leaves the service idle: no socket held, no
    timeout pending, the counter at 0, the state disconnected with no error
    and [lastUpdate] kept. It does not detach the handlers of the socket it
    closes: when that socket then fires its close event, a reconnect timeout
    is set, and when it fires the service opens a new socket. *)
Theorem disconnect_then_close_reconnects (c : WSService.WebSocketConfig)
  (events : list WSService.Event) (s : WSService.Service) (k : nat) :
  0 < WSService.maxReconnectAttempts c ->
  s = WSService.run (WSService.initial c) events ->
  WSService.ws s = Some k ->
  WSService.readyStateOf k (WSService.sockets s) = Some WSService.OPEN
  \/ WSService.readyStateOf k (WSService.sockets s) = Some WSService.CONNECTING ->
  (WSService.ws (WSService.step s WSService.Disconnect) = None
   /\ WSService.timers (WSService.step s WSService.Disconnect) = []
   /\ WSService.reconnectAttempts (WSService.step s WSService.Disconnect) = 0
   /\ WSService.state (WSService.step s WSService.Disconnect)
      = {| isConnected := false;
           lastUpdate := lastUpdate (WSService.state s);
           isChecking := false;
           error := None |})
  /\ WSService.timers
       (WSService.run s [WSService.Disconnect; WSService.SocketClose k])
     = [WSService.fresh s]
  /\ WSService.ws
       (WSService.run s [WSService.Disconnect; WSService.SocketClose k;
                         WSService.TimerFires (WSService.fresh s) None])
     = Some (S (WSService.fresh s))
  /\ In (S (WSService.fresh s), WSService.CONNECTING)
        (WSService.sockets
           (WSService.run s [WSService.Disconnect; WSService.SocketClose k;
                             WSService.TimerFires (WSService.fresh s) None]))
  /\ WSService.reconnectAttempts
       (WSService.run s [WSService.Disconnect; WSService.SocketClose k;
                         WSService.TimerFires (WSService.fresh s) None])
     = 1.
Proof.
  intros Hmax Hs Hws Hready.
  assert (Hinv : ws_timer_invariant s /\ ws_attempts_invariant c s).
  { subst s. destruct (ws_initial_invariants c) as [Ht Ha]; [lia|].
    now apply ws_run_invariants. }
  destruct Hinv as [Ht [Hc _]]. clear Hs.
  assert (Hclosing : WSService.readyStateOf k
                       (WSService.closing k (WSService.sockets s))
                     = Some WSService.CLOSING).
  { unfold WSService.closing.
    destruct Hready as [H|H]; rewrite H; eapply readyStateOf_set; exact H. }
  unfold WSService.run. cbn [fold_left].
  change (WSService.step s WSService.Disconnect) with (WSService.disconnect s).
  rewrite (ws_disconnect_fields s k Ht Hws).
  cbn [WSService.step WSService.sockets].
  rewrite Hclosing. unfold WSService.scheduleReconnect.
  cbn [WSService.with_state WSService.with_sockets WSService.config
       WSService.reconnectAttempts].
  rewrite Hc.
  destruct (Z.geb_spec 0 (WSService.maxReconnectAttempts c)); [lia|].
  unfold WSService.with_state, WSService.with_sockets,
    WSService.clearReconnectTimeout.
  cbn [WSService.reconnectTimeoutId WSService.ws WSService.sockets
       WSService.config WSService.fresh WSService.state WSService.timers
       WSService.emitted WSService.reconnectAttempts app existsb].
  rewrite Nat.eqb_refl.
  cbn [orb filter negb].
  unfold WSService.connect, WSService.with_state.
  cbn [WSService.reconnectTimeoutId WSService.ws WSService.sockets
       WSService.config WSService.fresh WSService.state WSService.timers
       WSService.emitted WSService.reconnectAttempts].
  repeat apply conj; try reflexivity.
  apply in_or_app. right. now left.
Qed.

Lemma disconnect_then_close_reconnects_witness :
  WSService.timers
    (WSService.run sampleOpenService
       [WSService.Disconnect; WSService.SocketClose 1])
  = [2%nat]
  /\ WSService.ws
       (WSService.run sampleOpenService
          [WSService.Disconnect; WSService.SocketClose 1;
           WSService.TimerFires 2 None])
     = Some 3%nat.
Proof.
  destruct (disconnect_then_close_reconnects WSService.WEBSOCKET_CONFIG
              [WSService.Connect None; WSService.SocketOpen 1 1768381380102]
              sampleOpenService 1%nat)
    as [_ [H1 [H2 _]]];
    [reflexivity | reflexivity | reflexivity | left; reflexivity |].
  split; assumption.
Defined.

(* ================================================================= *)
(** ** Status bar *)

(** X18. The status bar's age label. No update yet reads "Never". An update
    less than 5000 ms old, or stamped in the future (a device clock ahead of
    the browser's), reads "Just now". From 5000 ms up to a minute the label
    counts whole seconds, 5 to 59; from a minute up to an hour whole minutes,
    1 to 59; from an hour on it is the time of day of the update. *)
Theorem status_bar_age_label (rt : Runtime) (now ms : Z) :
  formatLastUpdate rt now None = "Never"
  /\ (now - ms < 5000 ->
      formatLastUpdate rt now (Some (DateAt ms)) = "Just now")
  /\ (5000 <= now - ms < 60000 ->
      exists seconds,
        5 <= seconds <= 59
        /\ seconds * 1000 <= now - ms < (seconds + 1) * 1000
        /\ formatLastUpdate rt now (Some (DateAt ms))
           = Z_toString seconds ++ "s ago")
  /\ (60000 <= now - ms < 3600000 ->
      exists minutes,
        1 <= minutes <= 59
        /\ minutes * 60000 <= now - ms < (minutes + 1) * 60000
        /\ formatLastUpdate rt now (Some (DateAt ms))
           = Z_toString minutes ++ "m ago")
  /\ (3600000 <= now - ms ->
      formatLastUpdate rt now (Some (DateAt ms))
      = toLocaleTimeString rt (DateAt ms)).
Proof.
  unfold formatLastUpdate. cbv zeta.
  pose proof (Z.div_mod (now - ms) 1000 ltac:(lia)) as Hd.
  pose proof (Z.mod_pos_bound (now - ms) 1000 ltac:(lia)) as Hm.
  pose proof (Z.div_mod ((now - ms) / 1000) 60 ltac:(lia)) as Hd'.
  pose proof (Z.mod_pos_bound ((now - ms) / 1000) 60 ltac:(lia)) as Hm'.
  repeat apply conj.
  - reflexivity.
  - intros H. destruct (Z.ltb_spec ((now - ms) / 1000) 5); [reflexivity | lia].
  - intros H. exists ((now - ms) / 1000).
    destruct (Z.ltb_spec ((now - ms) / 1000) 5); [lia|].
    destruct (Z.ltb_spec ((now - ms) / 1000) 60); [|lia].
    repeat split; lia.
  - intros H. exists ((now - ms) / 1000 / 60).
    destruct (Z.ltb_spec ((now - ms) / 1000) 5); [lia|].
    destruct (Z.ltb_spec ((now - ms) / 1000) 60); [lia|].
    destruct (Z.ltb_spec ((now - ms) / 1000) 3600); [|lia].
    repeat split; lia.
  - intros H.
    destruct (Z.ltb_spec ((now - ms) / 1000) 5); [lia|].
    destruct (Z.ltb_spec ((now - ms) / 1000) 60); [lia|].
    destruct (Z.ltb_spec ((now - ms) / 1000) 3600); [lia | reflexivity].
Qed.

Lemma status_bar_age_label_witness :
  formatLastUpdate sampleRuntime 1768381385000 (Some (DateAt 1768381390000))
  = "Just now"
  /\ exists minutes,
       1 <= minutes <= 59
       /\ minutes * 60000 <= 1768381385000 - 1768381260001 < (minutes + 1) * 60000
       /\ formatLastUpdate sampleRuntime 1768381385000 (Some (DateAt 1768381260001))
          = Z_toString minutes ++ "m ago".
Proof.
  split.
  - apply (proj1 (proj2 (status_bar_age_label sampleRuntime
                           1768381385000 1768381390000))). lia.
  - apply (proj1 (proj2 (proj2 (proj2 (status_bar_age_label sampleRuntime
                                          1768381385000 1768381260001))))). lia.
Defined.

Example two_minutes_ago :
  formatLastUpdate sampleRuntime 1768381385000 (Some (DateAt 1768381260001))
  = "2m ago".
Proof. reflexivity. Qed.

(* ================================================================= *)
(** ** Threshold classifier on every number *)

Lemma le_Fin_Int (q : Q) (z : Z) :
  JS.le (Fin q) (Int z) = true <-> (q <= inject_Z z)%Q.
Proof. unfold JS.le, Int. apply Qle_bool_iff. Qed.

Lemma lt_Fin_Int (q : Q) (z : Z) :
  JS.lt (Fin q) (Int z) = true <-> (q < inject_Z z)%Q.
Proof.
  unfold JS.lt, JS.le, Int. rewrite Bool.negb_true_iff.
  split.
  - intros H. apply Qnot_le_lt. intros Hle. apply Qle_bool_iff in Hle. congruence.
  - intros H. destruct (Qle_bool (inject_Z z) q) eqn:E; [|reflexivity].
    apply Qle_bool_iff in E. exfalso. now apply (Qlt_not_le _ _ H).
Qed.

Lemma true_iff_Q (P : Prop) : (true = true <-> P) <-> P.
Proof. split; [intros H; now apply H | now split]. Qed.

Lemma false_iff_Q (P : Prop) : (false = true <-> P) <-> ~ P.
Proof.
  split.
  - intros H HP. apply H in HP. discriminate.
  - intros H. split; [discriminate | contradiction].
Qed.

(** X19. The classifiers on any number, integer or not. A finite soil value
    is Good up to 1500 and Bad above 2500; a finite light value is Bad below
    1500 and Good from 3000 on; so a reading between two integers falls with
    the threshold it has not passed. NaN is classified Bad as soil moisture
    and Good as light, since every comparison with it fails. *)
Theorem classifiers_on_all_numbers :
  (forall q,
     (getSoilMoistureCondition (Fin q) = Good <-> (q <= 1500)%Q)
     /\ (getSoilMoistureCondition (Fin q) = Bad <-> (2500 < q)%Q)
     /\ (getLightCondition (Fin q) = Bad <-> (q < 1500)%Q)
     /\ (getLightCondition (Fin q) = Good <-> (3000 <= q)%Q))
  /\ getSoilMoistureCondition NaN = Bad
  /\ getLightCondition NaN = Good
  /\ getSoilMoistureCondition NegInf = Good
  /\ getSoilMoistureCondition PosInf = Bad
  /\ getLightCondition NegInf = Bad
  /\ getLightCondition PosInf = Good.
Proof.
  split; [|repeat split].
  intros q.
  unfold getSoilMoistureCondition, getLightCondition.
  cbn [good okay SOIL_MOISTURE_THRESHOLDS LIGHT_THRESHOLDS].
  pose proof (le_Fin_Int q 1500) as L1. pose proof (le_Fin_Int q 2500) as L2.
  pose proof (lt_Fin_Int q 1500) as T1. pose proof (lt_Fin_Int q 3000) as T2.
  change (inject_Z 1500) with 1500%Q in *.
  change (inject_Z 2500) with 2500%Q in *.
  change (inject_Z 3000) with 3000%Q in *.
  destruct (JS.le (Fin q) (Int 1500)) eqn:E1;
    destruct (JS.le (Fin q) (Int 2500)) eqn:E2;
    destruct (JS.lt (Fin q) (Int 1500)) eqn:E3;
    destruct (JS.lt (Fin q) (Int 3000)) eqn:E4;
    rewrite ?true_iff_Q, ?false_iff_Q in *;
    repeat split; intros; try discriminate; try reflexivity;
    try (exfalso; lra); lra.
Qed.
